(** * Luna chat widget (script.js): setup handler and message flow

    A shallow embedding of [src/script.js] and the properties of its two
    collaborating pieces: the click listener of the setup form and the
    asynchronous [sendMessage] with its helpers [calculateCyclePhase] and
    [addMessage].

    Layout:
    - [Host]: the fragment of the JavaScript host the script relies on
      (strings, numbers, JSON values, truthiness, property reads);
    - [Page]: the page state the script reads and writes, and the monad of
      state and exceptions its functions run in;
    - [Script]: the functions of script.js;
    - runs of the page, and one send described from the answers of the
      two services;
    - [Examples]: concrete pages and worlds;
    - sends in flight: a send from [await] to [await], with whatever the
      page handles in between, other sends among it;
    - the properties: numbers, strings, the equations of the handlers, the
      chat log, the setup handler, the message flow, invariants of a run,
      and the chat log when sends overlap. *)

From Stdlib Require Import ZArith Ascii String DecimalString.
From stdpp Require Import gmap strings list.

Local Open Scope string_scope.
Local Open Scope Z_scope.
Local Set Warnings "-register-all".

(** ** The host fragment *)

Module Host.

(** Strings are byte strings holding UTF-8 text; [++] is concatenation. *)

Definition bytes (l : list Z) : string :=
  string_of_list_ascii (List.map (fun b => ascii_of_N (Z.to_N b)) l).

(** The code points [String.prototype.trim] and [Number] strip: WhiteSpace
    and LineTerminator of ECMA-262, in their UTF-8 encoding. *)
Definition white_space : list string :=
  [ bytes [9]; bytes [10]; bytes [11]; bytes [12]; bytes [13]; bytes [32];
    bytes [194; 160];                   (* U+00A0 *)
    bytes [225; 154; 128];              (* U+1680 *)
    bytes [226; 128; 128]; bytes [226; 128; 129]; bytes [226; 128; 130];
    bytes [226; 128; 131]; bytes [226; 128; 132]; bytes [226; 128; 133];
    bytes [226; 128; 134]; bytes [226; 128; 135]; bytes [226; 128; 136];
    bytes [226; 128; 137]; bytes [226; 128; 138];     (* U+2000..U+200A *)
    bytes [226; 128; 168]; bytes [226; 128; 169];     (* U+2028, U+2029 *)
    bytes [226; 128; 175];              (* U+202F *)
    bytes [226; 129; 159];              (* U+205F *)
    bytes [227; 128; 128];              (* U+3000 *)
    bytes [239; 187; 191] ].            (* U+FEFF *)

(** [strip_prefix p s] is the rest of [s] after the prefix [p], if any. *)
Fixpoint strip_prefix (p s : string) : option string :=
  match p, s with
  | EmptyString, _ => Some s
  | String a p', String b s' =>
      if Ascii.eqb a b then strip_prefix p' s' else None
  | String _ _, EmptyString => None
  end.

(** The rest of [s] after one leading white-space code point. *)
Fixpoint strip_ws_from (ws : list string) (s : string) : option string :=
  match ws with
  | [] => None
  | p :: ws' =>
      match strip_prefix p s with
      | Some r => Some r
      | None => strip_ws_from ws' s
      end
  end.

Definition strip_ws : string -> option string := strip_ws_from white_space.

Fixpoint trimStart_fuel (fuel : nat) (s : string) : string :=
  match fuel with
  | O => s
  | S fuel' =>
      match s with
      | EmptyString => s
      | String _ _ =>
          match strip_ws s with
          | Some r => trimStart_fuel fuel' r
          | None => s
          end
      end
  end.

(** Every white-space code point is at least one byte long, so the length
    of the string is fuel enough. *)
Definition trimStart (s : string) : string :=
  trimStart_fuel (String.length s) s.

Definition all_white_space (s : string) : bool :=
  String.eqb (trimStart s) "".

Fixpoint trimEnd (s : string) : string :=
  match s with
  | EmptyString => EmptyString
  | String c s' =>
      if all_white_space s then EmptyString else String c (trimEnd s')
  end.

(** [String.prototype.trim]. *)
Definition trim (s : string) : string := trimEnd (trimStart s).

(** [text.replace(/~~/g, '')]: the matches are found left to right and do
    not overlap. *)
Fixpoint remove_tildes (s : string) : string :=
  match s with
  | EmptyString => EmptyString
  | String c r =>
      match r with
      | String c' r' =>
          if Ascii.eqb c "~" && Ascii.eqb c' "~" then remove_tildes r'
          else String c (remove_tildes r)
      | EmptyString => String c EmptyString
      end
  end.

(** [s.split(sep)[0]] for a one-character separator. *)
Fixpoint before (sep : ascii) (s : string) : string :=
  match s with
  | EmptyString => EmptyString
  | String c r => if Ascii.eqb c sep then EmptyString else String c (before sep r)
  end.

(** [sub] occurs in [s]. *)
Definition contains (s sub : string) : Prop :=
  exists pre post, s = pre ++ sub ++ post.

(** *** Numbers

    A number is an IEEE-754 double: [NaN], an infinity, or a finite value,
    kept as its exact decimal [m * 10^e] ([Finite m e], with [m] not a
    multiple of ten unless it is zero; every double has a finite decimal
    expansion). [Number] rounds what it reads to the nearest double and
    [NumberToString] prints the shortest decimal that reads back as the
    same double. The sign of zero is not kept: nothing the script does
    tells the two zeros apart (both are falsy, and both are printed as 0 by
    ToString and by JSON.stringify). *)

Inductive number : Type :=
  | NaN
  | Infinity (negative : bool)
  | Finite (m e : Z).

Fixpoint normalize_fuel (fuel : nat) (m e : Z) : Z * Z :=
  match fuel with
  | O => (m, e)
  | S fuel' =>
      if m mod 10 =? 0 then normalize_fuel fuel' (m / 10) (e + 1) else (m, e)
  end.

Definition normalize (m e : Z) : Z * Z :=
  if m =? 0 then (0, 0)
  else normalize_fuel (Z.to_nat (Z.log2 (Z.abs m))) m e.

Definition finite (m e : Z) : number :=
  let '(m', e') := normalize m e in Finite m' e'.

(** [n / d] rounded to the nearest integer, ties to even, for [0 < d]. *)
Definition round_half_even (n d : Z) : Z :=
  let q := n / d in
  let r := n mod d in
  if (d <? 2 * r) || ((2 * r =? d) && Z.odd q) then q + 1 else q.

(** The integer part of the binary logarithm of [n / d], for positive [n]
    and [d]. *)
Definition floor_log2 (n d : Z) : Z :=
  let k := Z.log2 n - Z.log2 d in
  if (if 0 <=? k then d * 2 ^ k <=? n else d <=? n * 2 ^ (- k)) then k
  else k - 1.

(** The double nearest to [m * 10^e], for [0 < m]: a multiple [q * 2^x] of
    the unit in the last place [2^x], with 53 bits of precision and [x] no
    less than -1074 (below the normal range the precision shrinks, down to
    zero); ties go to the even [q]; what rounds to [2^1024] or more is
    infinite. *)
Definition round_double (m e : Z) : number :=
  let n := if 0 <=? e then m * 10 ^ e else m in
  let d := if 0 <=? e then 1 else 10 ^ (- e) in
  let x := Z.max (floor_log2 n d - 52) (-1074) in
  if 0 <=? x then
    let q := round_half_even n (d * 2 ^ x) in
    if 2 ^ 1024 <=? q * 2 ^ x then Infinity false else finite (q * 2 ^ x) 0
  else
    let q := round_half_even (n * 2 ^ (- x)) d in
    finite (q * 5 ^ (- x)) x.

(** The double nearest to [m * 10^e] or to its opposite, for [0 <= m]. *)
Definition double (negative : bool) (m e : Z) : number :=
  if m =? 0 then Finite 0 0
  else
    match round_double m e with
    | Finite q x => Finite (if negative then - q else q) x
    | _ => Infinity negative
    end.

Definition is_positive_integer (x : number) : Prop :=
  match x with
  | Finite m e => 0 < m /\ 0 <= e
  | _ => False
  end.

Definition digit_value (c : ascii) : option Z :=
  let n := Z.of_N (N_of_ascii c) in
  if (48 <=? n) && (n <=? 57) then Some (n - 48)
  else if (97 <=? n) && (n <=? 102) then Some (n - 87)
  else if (65 <=? n) && (n <=? 70) then Some (n - 55)
  else None.

Definition digit_in (radix : Z) (c : ascii) : option Z :=
  match digit_value c with
  | Some d => if d <? radix then Some d else None
  | None => None
  end.

(** The longest prefix of digits of [s]: how many there are, the value of
    [acc] followed by them, and the rest of [s]. *)
Fixpoint digits (radix acc : Z) (n : nat) (s : string) : nat * Z * string :=
  match s with
  | EmptyString => (n, acc, s)
  | String c r =>
      match digit_in radix c with
      | Some d => digits radix (acc * radix + d) (S n) r
      | None => (n, acc, s)
      end
  end.

Definition is_char (c : ascii) (s : string) : bool :=
  String.eqb (String c EmptyString) s.

Definition sign_of (s : string) : bool * string :=
  match s with
  | String c r =>
      if is_char c "-" then (true, r)
      else if is_char c "+" then (false, r)
      else (false, s)
  | EmptyString => (false, s)
  end.

(** ExponentPart_opt followed by the end of the literal. *)
Definition exponent_part (s : string) : option Z :=
  match s with
  | EmptyString => Some 0
  | String c r =>
      if is_char c "e" || is_char c "E" then
        let '(neg, r') := sign_of r in
        match digits 10 0 0 r' with
        | (S _, v, EmptyString) => Some (if neg then - v else v)
        | _ => None
        end
      else None
  end.

(** StrUnsignedDecimalLiteral without [Infinity]: mantissa and exponent. *)
Definition unsigned_decimal (s : string) : option (Z * Z) :=
  let '(ni, vi, r) := digits 10 0 0 s in
  let '(nf, v, r') :=
    match r with
    | String c rf => if is_char c "." then digits 10 vi 0 rf else (O, vi, r)
    | EmptyString => (O, vi, r)
    end in
  if Nat.eqb (ni + nf) 0 then None
  else
    match exponent_part r' with
    | Some x => Some (v, x - Z.of_nat nf)
    | None => None
    end.

Definition signed_decimal (s : string) : number :=
  let '(neg, u) := sign_of s in
  if String.eqb u "Infinity" then Infinity neg
  else
    match unsigned_decimal u with
    | Some (m, e) => double neg m e
    | None => NaN
    end.

Definition radix_of (c : ascii) : option Z :=
  if is_char c "x" || is_char c "X" then Some 16
  else if is_char c "o" || is_char c "O" then Some 8
  else if is_char c "b" || is_char c "B" then Some 2
  else None.

Definition radix_literal (radix : Z) (s : string) : number :=
  match digits radix 0 0 s with
  | (S _, v, EmptyString) => double false v 0
  | _ => NaN
  end.

(** StringToNumber of ECMA-262: what [Number] does to a string. The
    literal is read exactly and rounded once, whatever its length. *)
Definition StringToNumber (s : string) : number :=
  match trim s with
  | EmptyString => Finite 0 0
  | String c r as t =>
      match r with
      | String x r' =>
          match (if is_char c "0" then radix_of x else None) with
          | Some radix => radix_literal radix r'
          | None => signed_decimal t
          end
      | EmptyString => signed_decimal t
      end
  end.

Definition digits_of (m : Z) : string :=
  NilZero.string_of_uint (N.to_uint (Z.to_N m)).

Fixpoint zeros (n : nat) : string :=
  match n with
  | O => EmptyString
  | S n' => String "0" (zeros n')
  end.

(** [s * 10^x] reads back as the double [m * 10^e]. *)
Definition rounds_to (m e s x : Z) : bool :=
  match round_double s x with
  | Finite q y => (q =? m) && (y =? e)
  | _ => false
  end.

(** The decimal of fewest digits that reads back as the double [m * 10^e],
    [0 < m] of [K] digits: with [k] digits, only the two neighbours of the
    value can do, and of two that do the closer one is taken, the even one
    when they are as close. Seventeen digits always suffice; a value that is
    not a double is left as it is. *)
Fixpoint shortest_from (fuel : nat) (k m e K : Z) : Z * Z :=
  match fuel with
  | O => (m, e)
  | S fuel' =>
      if K <=? k then (m, e)
      else
        let p := 10 ^ (K - k) in
        let x := e + (K - k) in
        let lo := m / p in
        let r := m mod p in
        let up := (p <? 2 * r) || ((2 * r =? p) && Z.odd lo) in
        match rounds_to m e lo x, rounds_to m e (lo + 1) x with
        | true, true => (if up then lo + 1 else lo, x)
        | true, false => (lo, x)
        | false, true => (lo + 1, x)
        | false, false => shortest_from fuel' (k + 1) m e K
        end
  end.

Definition shortest (m e : Z) : Z * Z :=
  let '(s, x) :=
    shortest_from 17 1 m e (Z.of_nat (String.length (digits_of m))) in
  normalize s x.

(** Number::toString in radix ten, for the digits [m] and the exponent [e],
    [0 < m]. *)
Definition positive_to_string (m e : Z) : string :=
  let s := digits_of m in
  let k := Z.of_nat (String.length s) in
  let n := k + e in
  if (k <=? n) && (n <=? 21) then s ++ zeros (Z.to_nat (n - k))
  else if (0 <? n) && (n <=? 21) then
    substring 0 (Z.to_nat n) s ++ "." ++ substring (Z.to_nat n) (Z.to_nat (k - n)) s
  else if (-6 <? n) && (n <=? 0) then "0." ++ zeros (Z.to_nat (- n)) ++ s
  else
    let x := n - 1 in
    let exp := (if 0 <=? x then "+" else "-") ++ digits_of (Z.abs x) in
    if k =? 1 then s ++ "e" ++ exp
    else substring 0 1 s ++ "." ++ substring 1 (Z.to_nat (k - 1)) s ++ "e" ++ exp.

Definition NumberToString (x : number) : string :=
  match x with
  | NaN => "NaN"
  | Infinity neg => if neg then "-Infinity" else "Infinity"
  | Finite m e =>
      let '(m, e) := normalize m e in
      if m =? 0 then "0"
      else
        let '(s, x) := shortest (Z.abs m) e in
        (if m <? 0 then "-" else "") ++ positive_to_string s x
  end.

(** [Number(x)] for [x] a string or already a number. *)
Definition Number (x : string + number) : number :=
  match x with
  | inl s => StringToNumber s
  | inr n => n
  end.

(** *** Exceptions and completions *)

Inductive exn : Type := Exn (name message : string).

Definition message (e : exn) : string := let 'Exn _ m := e in m.

(** [new Error(msg)] for a string [msg]. *)
Definition Error (msg : string) : exn := Exn "Error" msg.
Definition TypeError (msg : string) : exn := Exn "TypeError" msg.

Inductive completion (A : Type) : Type :=
  | Normal (a : A)
  | Throw (e : exn).
Arguments Normal {A} a.
Arguments Throw {A} e.

#[export] Instance completion_ret : MRet completion := @Normal.

#[export] Instance completion_bind : MBind completion := fun A B f c =>
  match c with
  | Normal a => f a
  | Throw e => Throw e
  end.

(** *** Values, as [JSON.parse] builds them

    An object keeps its members in source order; of two members with one
    name the later one is the property. [VUndefined] is what reading an
    absent property gives. *)

Inductive value : Type :=
  | VUndefined
  | VNull
  | VBool (b : bool)
  | VNumber (n : number)
  | VString (s : string)
  | VArray (items : list value)
  | VObject (members : list (string * value)).

Fixpoint own_property (name : string) (members : list (string * value)) : option value :=
  match members with
  | [] => None
  | (k, v) :: rest =>
      match own_property name rest with
      | Some v' => Some v'
      | None => if String.eqb k name then Some v else None
      end
  end.

(** ToBoolean. *)
Definition truthy (v : value) : bool :=
  match v with
  | VUndefined | VNull => false
  | VBool b => b
  | VNumber NaN => false
  | VNumber (Infinity _) => true
  | VNumber (Finite m _) => negb (m =? 0)
  | VString s => negb (String.eqb s "")
  | VArray _ | VObject _ => true
  end.

Definition cannot_convert : exn :=
  TypeError "Cannot convert object to primitive value".

(** ToString. An array joins the strings of its items with commas, an
    absent or null item counting as empty. An object is [[object Object]]
    through [Object.prototype.toString]; when it has a member named
    [toString] of its own, that member is not callable, [valueOf] gives
    the object back, and the conversion throws. *)
Fixpoint ToString (v : value) : completion string :=
  match v with
  | VUndefined => Normal "undefined"
  | VNull => Normal "null"
  | VBool b => Normal (if b then "true" else "false")
  | VNumber n => Normal (NumberToString n)
  | VString s => Normal s
  | VArray items =>
      (fix join (l : list value) : completion string :=
         match l with
         | [] => Normal ""
         | x :: r =>
             let sx :=
               match x with
               | VUndefined | VNull => Normal ""
               | _ => ToString x
               end in
             match sx with
             | Throw e => Throw e
             | Normal a =>
                 match r with
                 | [] => Normal a
                 | _ :: _ =>
                     match join r with
                     | Throw e => Throw e
                     | Normal b => Normal (a ++ "," ++ b)
                     end
                 end
             end
         end) items
  | VObject members =>
      match own_property "toString" members with
      | Some _ => Throw cannot_convert
      | None => Normal "[object Object]"
      end
  end.

(** Property names: [v.name] and [v[i]]. *)
Inductive key : Type :=
  | Field (name : string)
  | Index (i : nat).

Definition key_name (k : key) : string :=
  match k with
  | Field name => name
  | Index i => NilZero.string_of_uint (Nat.to_uint i)
  end.

Definition cannot_read (what : string) (k : key) : exn :=
  TypeError ("Cannot read properties of " ++ what ++ " (reading '" ++ key_name k ++ "')").

(** The read [v.name] or [v[i]], for the names script.js reads ([success],
    [error], [cycle_day], [phase], [choices], [message], [content]) and the
    index [0]: none of them is a property of a built-in prototype, so only
    own properties, array items and the characters of a string answer (a
    character is a byte here, a UTF-16 code unit in the host). The message
    of the TypeError is the wording of V8. *)
Definition get (v : value) (k : key) : completion value :=
  match v with
  | VUndefined => Throw (cannot_read "undefined" k)
  | VNull => Throw (cannot_read "null" k)
  | VObject members =>
      Normal (default VUndefined (own_property (key_name k) members))
  | VArray items =>
      match k with
      | Index i => Normal (nth i items VUndefined)
      | Field _ => Normal VUndefined
      end
  | VString s =>
      match k with
      | Index i =>
          Normal (match String.get i s with
                  | Some c => VString (String c EmptyString)
                  | None => VUndefined
                  end)
      | Field _ => Normal VUndefined
      end
  | VBool _ | VNumber _ => Normal VUndefined
  end.

(** The optional read [v?.name] or [v?.[i]]. *)
Definition get_opt (v : value) (k : key) : completion value :=
  match v with
  | VUndefined | VNull => Normal VUndefined
  | _ => get v k
  end.

End Host.

Import Host.

(** ** The page *)

Module Page.

(** The element [addMessage] builds: the wrapper [div] with its class and
    the bubble inside it, filled either through [textContent] or through
    [innerHTML]. *)
Inductive bubble_content : Type :=
  | textContent (text : string)
  | innerHTML (html : string).

Record message_div : Type := {
  className : string;
  bubble_className : string;
  bubble : bubble_content
}.

(** What [fetch] is called with; [body] is the value handed to
    [JSON.stringify]. *)
Record request : Type := {
  url : string;
  method : string;
  headers : list (string * string);
  body : value
}.

(** What [fetch] answers with: it rejects, or it resolves to a response
    with a status, whose [json()] rejects or resolves to the parsed body. *)
Record response : Type := {
  status : Z;
  json : exn + value
}.

Inductive fetched : Type :=
  | Rejected (e : exn)
  | Resolved (r : response).

(** [response.ok]. *)
Definition ok (r : response) : bool :=
  (200 <=? status r) && (status r <=? 299).

(** Everything outside the page that one run of a handler can observe: the
    clock ([new Date().toISOString()]), the network, and the Markdown
    renderer when the library is loaded ([None] when [typeof marked] is
    ['undefined']). [marked.parse] is taken as a function from strings to
    strings: it returns for every text the script hands it. *)
Record world : Type := {
  now : string;
  fetch : request -> fetched;
  marked : option (string -> string)
}.

(** The variables of the script and the parts of the document and of the
    browser it reads or writes. [userLastPeriodDate] is [None] for [null].
    The fields named after an element hold the one property the script
    uses of it: [value] of the inputs, [style.display] of [setupScreen] and
    [loading], the children of [chatContainer]. [alerts] and [requests]
    record the calls of [alert] and of [fetch], oldest first. What
    [console.log] prints and the scroll position of the chat are not part
    of the state. *)
Record state : Type := {
  userLastPeriodDate : option string;
  userCycleLength : number;
  setupLastPeriodInput : string;
  setupCycleLengthInput : string;
  setupScreen : string;
  userInput : string;
  loading : string;
  chatContainer : list message_div;
  localStorage : gmap string string;
  alerts : list string;
  requests : list request
}.

(** The page as the script finds it when it is loaded: the two variables
    as lines 15 and 16 set them, empty inputs, no inline [display] on the
    two elements, an empty chat, and whatever storage holds. *)
Definition initial (storage : gmap string string) : state := {|
  userLastPeriodDate := None;
  userCycleLength := Finite 28 0;
  setupLastPeriodInput := "";
  setupCycleLengthInput := "";
  setupScreen := "";
  userInput := "";
  loading := "";
  chatContainer := [];
  localStorage := storage;
  alerts := [];
  requests := []
|}.

(** The assignments to one part of the page. *)

Definition with_userLastPeriodDate (v : option string) (st : state) : state :=
  let 'Build_state d n lp cl ss ui ld cc ls al rq := st in
  Build_state v n lp cl ss ui ld cc ls al rq.

Definition with_userCycleLength (v : number) (st : state) : state :=
  let 'Build_state d n lp cl ss ui ld cc ls al rq := st in
  Build_state d v lp cl ss ui ld cc ls al rq.

Definition with_setupLastPeriodInput (v : string) (st : state) : state :=
  let 'Build_state d n lp cl ss ui ld cc ls al rq := st in
  Build_state d n v cl ss ui ld cc ls al rq.

Definition with_setupCycleLengthInput (v : string) (st : state) : state :=
  let 'Build_state d n lp cl ss ui ld cc ls al rq := st in
  Build_state d n lp v ss ui ld cc ls al rq.

Definition with_setupScreen (v : string) (st : state) : state :=
  let 'Build_state d n lp cl ss ui ld cc ls al rq := st in
  Build_state d n lp cl v ui ld cc ls al rq.

Definition with_userInput (v : string) (st : state) : state :=
  let 'Build_state d n lp cl ss ui ld cc ls al rq := st in
  Build_state d n lp cl ss v ld cc ls al rq.

Definition with_loading (v : string) (st : state) : state :=
  let 'Build_state d n lp cl ss ui ld cc ls al rq := st in
  Build_state d n lp cl ss ui v cc ls al rq.

Definition with_chatContainer (v : list message_div) (st : state) : state :=
  let 'Build_state d n lp cl ss ui ld cc ls al rq := st in
  Build_state d n lp cl ss ui ld v ls al rq.

Definition with_localStorage (v : gmap string string) (st : state) : state :=
  let 'Build_state d n lp cl ss ui ld cc ls al rq := st in
  Build_state d n lp cl ss ui ld cc v al rq.

Definition with_alerts (v : list string) (st : state) : state :=
  let 'Build_state d n lp cl ss ui ld cc ls al rq := st in
  Build_state d n lp cl ss ui ld cc ls v rq.

Definition with_requests (v : list request) (st : state) : state :=
  let 'Build_state d n lp cl ss ui ld cc ls al rq := st in
  Build_state d n lp cl ss ui ld cc ls al v.

(** *** Computations

    A handler of the script runs on the page and either completes normally
    or throws. An [await] is the point where the world answers. A
    computation follows one call to its end; what the page does while a
    call waits at an [await] is the matter of the sends in flight, further
    down, where the same call is cut at its [await]s. *)
Definition M (A : Type) : Type := state -> completion A * state.

#[export] Instance M_ret : MRet M := fun A a st => (Normal a, st).

#[export] Instance M_bind : MBind M := fun A B f c st =>
  match c st with
  | (Normal a, st') => f a st'
  | (Throw e, st') => (Throw e, st')
  end.

Definition throw {A : Type} (e : exn) : M A := fun st => (Throw e, st).

(** A completion of the host, as a computation. *)
Definition lift {A : Type} (c : completion A) : M A := fun st => (c, st).

Definition gets {A : Type} (f : state -> A) : M A := fun st => (Normal (f st), st).

Definition modify (f : state -> state) : M unit := fun st => (Normal tt, f st).

(** [try { body } catch (error) { handler error } finally { finalizer }]. *)
Definition try_catch_finally {A : Type}
    (body : M A) (handler : exn -> M A) (finalizer : M unit) : M A :=
  fun st =>
    let '(r, st1) :=
      match body st with
      | (Throw e, st') => handler e st'
      | (Normal a, st') => (Normal a, st')
      end in
    match finalizer st1 with
    | (Normal _, st2) => (r, st2)
    | (Throw e, st2) => (Throw e, st2)
    end.

(** The page a computation leaves. *)
Definition exec {A : Type} (c : M A) (st : state) : state := snd (c st).

End Page.

Import Page.

(** ** The script *)

Module Script.

(** The sender of a message is one of the two strings ['user'] and
    ['assistant']; every call in the script passes one of them. *)
Inductive sender : Type := user | assistant.

Definition sender_string (s : sender) : string :=
  match s with
  | user => "user"
  | assistant => "assistant"
  end.

(** The element lines 145 to 160 build for [text] and [sender]. *)
Definition new_message (w : world) (text : string) (s : sender) : message_div :=
  {| className := "message " ++ sender_string s;
     bubble_className := "message-bubble";
     bubble :=
       match s, marked w with
       | assistant, Some parse => innerHTML (parse text)
       | _, _ => textContent text
       end |}.

(** [addMessage(text, sender)], lines 142 to 164. *)
Definition addMessage (w : world) (text : string) (s : sender) : M unit :=
  modify (fun st => with_chatContainer (chatContainer st ++ [new_message w text s]) st).

(** [alert(text)]. *)
Definition alert (text : string) : M unit :=
  modify (fun st => with_alerts (alerts st ++ [text]) st).

(** [localStorage.setItem(k, v)], for a storage that has room. *)
Definition setItem (k v : string) : M unit :=
  modify (fun st => with_localStorage (<[k := v]> (localStorage st)) st).

(** [await fetch(...)]: the call is recorded, then the world answers. *)
Definition await_fetch (w : world) (req : request) : M response :=
  fun st =>
    let st' := with_requests (requests st ++ [req]) st in
    match fetch w req with
    | Rejected e => (Throw e, st')
    | Resolved r => (Normal r, st')
    end.

(** [await response.json()]. *)
Definition await_json (r : response) : M value :=
  match json r with
  | inl e => throw e
  | inr v => mret v
  end.

Definition date_prompt : string :=
  "Please enter the start date of your last period.".

(** [setupCycleLengthInput.value || 28], line 20: the string of the field,
    or the number 28 when the field is empty. *)
Definition cycleLength_of (field : string) : string + number :=
  if String.eqb field "" then inr (Finite 28 0) else inl field.

(** The click listener of [completeSetupBtn], lines 18 to 36. *)
Definition completeSetup : M unit :=
  lastPeriod ← gets setupLastPeriodInput;
  field ← gets setupCycleLengthInput;
  let cycleLength := cycleLength_of field in
  if String.eqb lastPeriod "" then
    alert date_prompt
  else
    modify (with_userLastPeriodDate (Some lastPeriod));;
    modify (with_userCycleLength (Number cycleLength));;
    setItem "lastPeriodDate" lastPeriod;;
    n ← gets userCycleLength;
    setItem "cycleLength" (NumberToString n);;
    modify (with_setupScreen "none").

Definition calculate_cycle_url : string :=
  "http://127.0.0.1:5000/api/calculate-cycle".

Definition chat_completions_url : string :=
  "https://openrouter.ai/api/v1/chat/completions".

(** The request of lines 41 to 51. *)
Definition calculate_cycle_request (w : world) (lastPeriodDate : string)
    (cycleLength : number) : request :=
  {| url := calculate_cycle_url;
     method := "POST";
     headers := [("Content-Type", "application/json")];
     body := VObject
       [ ("last_period_date", VString lastPeriodDate);
         ("cycle_length", VNumber cycleLength);
         ("current_date", VString (before "T" (now w))) ] |}.

(** Lines 59 to 63: the check of the parsed answer. [new Error(x)] takes
    the string of [x] as its message. *)
Definition check_success (data : value) : completion value :=
  success ← get data (Field "success");
  if negb (truthy success) then
    error ← get data (Field "error");
    msg ← ToString (if truthy error then error
                    else VString "Unknown error occurred");
    Throw (Error msg)
  else Normal data.

(** [calculateCyclePhase(lastPeriodDate, cycleLength)], lines 40 to 64. *)
Definition calculateCyclePhase (w : world) (lastPeriodDate : string)
    (cycleLength : number) : M value :=
  response ← await_fetch w (calculate_cycle_request w lastPeriodDate cycleLength);
  if negb (ok response) then
    throw (Error "Failed to calculate cycle phase")
  else
    data ← await_json response;
    lift (check_success data).

Definition setup_request : string :=
  "Please complete the setup so I can understand your cycle 💕".

Definition fallback : string :=
  "I'm sorry — I couldn't generate a response.".

(** The template literal of lines 116 to 119: the persona, the cycle
    information, and the message after its label, each on a line of its
    own with the indentation of the source. *)
Definition persona : string :=
  "You are Luna, a compassionate AI health companion specializing in menstrual health and hormonal science. A user is sharing their symptoms or experiences. 
                    Provide validation and scientifically-backed insights about how their symptoms relate to hormonal cycles. Be warm, supportive, and informative. Keep responses concise but meaningful. Avoid medical diagnosis. 
                    ".

Definition user_message_label : string :=
  "
                    User message: ".

Definition prompt (cycleInfoText message : string) : string :=
  persona ++ cycleInfoText ++ user_message_label ++ message.

(** The request of lines 98 to 119. The bearer token of the source is left
    out of the [Authorization] header. *)
Definition chat_request (content : string) : request :=
  {| url := chat_completions_url;
     method := "POST";
     headers :=
       [ ("Authorization", "Bearer");
         ("HTTP-Referer", "https://www.menstrual-health-chatbot.com");
         ("X-Title", "menstrual-health-chatbot");
         ("Content-Type", "application/json") ];
     body := VObject
       [ ("model", VString "mistralai/mistral-7b-instruct:free");
         ("max_tokens", VNumber (Finite 1000 0));
         ("messages",
          VArray [VObject [("role", VString "user");
                           ("content", VString content)]]) ] |}.

(** [markdownText.replace(/~~/g, '')]: only a string has the method. *)
Definition replace_tildes (markdownText : value) : completion string :=
  match markdownText with
  | VString s => Normal (remove_tildes s)
  | VUndefined => Throw (cannot_read "undefined" (Field "replace"))
  | VNull => Throw (cannot_read "null" (Field "replace"))
  | _ => Throw (TypeError "markdownText.replace is not a function")
  end.

(** The template literal of line 94. *)
Definition cycleInfoText (cycleInfo : value) : completion string :=
  cycle_day ← get cycleInfo (Field "cycle_day");
  day ← ToString cycle_day;
  phase ← get cycleInfo (Field "phase");
  ph ← ToString phase;
  Normal ("The user is currently on cycle day " ++ day ++ ", in the " ++ ph ++ ".").

(** [data.choices?.[0]?.message?.content], line 125. *)
Definition content_of (data : value) : completion value :=
  choices ← get data (Field "choices");
  choice ← get_opt choices (Index 0);
  msg ← get_opt choice (Field "message");
  get_opt msg (Field "content").

(** Lines 124 to 128: the text of the reply. *)
Definition markdownText (data : value) : completion string :=
  content ← content_of data;
  replace_tildes (if truthy content then content else VString fallback).

(** Lines 94 to 130: the rest of the [try] block once [cycleInfo] is there. *)
Definition sendMessage_reply (w : world) (message : string) (cycleInfo : value) : M unit :=
  text ← lift (cycleInfoText cycleInfo);
  response ← await_fetch w (chat_request (prompt text message));
  data ← await_json response;
  reply ← lift (markdownText data);
  addMessage w reply assistant.

(** Lines 83 to 85: the answer when the setup is missing. The [return]
    leaves the [try] block, and the function once [finally] has run. *)
Definition ask_for_setup (w : world) : M unit :=
  addMessage w setup_request assistant;;
  modify (with_loading "none").

(** The [try] block of [sendMessage], lines 81 to 130. The guard
    [!userLastPeriodDate] holds of [null] and of the empty string. *)
Definition sendMessage_try (w : world) (message : string) : M unit :=
  date ← gets userLastPeriodDate;
  match date with
  | None => ask_for_setup w
  | Some lastPeriodDate =>
      if String.eqb lastPeriodDate "" then ask_for_setup w
      else
        cycleLength ← gets userCycleLength;
        cycleInfo ← calculateCyclePhase w lastPeriodDate cycleLength;
        sendMessage_reply w message cycleInfo
  end.

(** [sendMessage()], lines 69 to 138. *)
Definition sendMessage (w : world) : M unit :=
  message ← gets (fun st => trim (userInput st));
  if String.eqb message "" then mret tt
  else
    addMessage w message user;;
    modify (with_userInput "");;
    modify (with_loading "block");;
    try_catch_finally
      (sendMessage_try w message)
      (fun error => addMessage w ("Error: " ++ Host.message error) assistant)
      (modify (with_loading "none")).

End Script.

Arguments Script.prompt : simpl never.
Arguments Script.chat_request : simpl never.
Arguments Script.calculate_cycle_request : simpl never.
Arguments Script.new_message : simpl never.

Import Script.

(** ** Running the page

    What happens on the page between two handlers: the user edits one of
    the three inputs, confirms the setup, or sends. In a run every send is
    over, against the world of that moment, before the next event: nothing
    happens on the page while it waits. Sends that overlap are plays, in the
    section on sends in flight; a run is the play in which the promises of
    each send settle at once ([play_serial]). *)

Inductive event : Type :=
  | Type_userInput (text : string)
  | Type_setupLastPeriod (text : string)
  | Type_setupCycleLength (text : string)
  | Click_completeSetup
  | Send (w : world).

Definition step (ev : event) (st : state) : state :=
  match ev with
  | Type_userInput text => with_userInput text st
  | Type_setupLastPeriod text => with_setupLastPeriodInput text st
  | Type_setupCycleLength text => with_setupCycleLengthInput text st
  | Click_completeSetup => exec completeSetup st
  | Send w => exec (sendMessage w) st
  end.

Fixpoint run (evs : list event) (st : state) : state :=
  match evs with
  | [] => st
  | ev :: evs' => run evs' (step ev st)
  end.

(** The sends of a run, each with the world it ran in and the trimmed
    input it found. *)
Fixpoint sends (evs : list event) (st : state) : list (world * string) :=
  match evs with
  | [] => []
  | ev :: evs' =>
      match ev with
      | Send w => (w, trim (userInput st)) :: sends evs' (step ev st)
      | _ => sends evs' (step ev st)
      end
  end.

(** The entries of the chat log for a list of sends and their replies. *)
Fixpoint transcript (turns : list (world * string)) (replies : list string) : list message_div :=
  match turns, replies with
  | (w, message) :: turns', reply :: replies' =>
      new_message w message user :: new_message w reply assistant
        :: transcript turns' replies'
  | _, _ => []
  end.

(** ** One send, from the answers of the world *)

(** The page once [sendMessage] has shown the message and is about to
    enter its [try] block (lines 74 to 78). *)
Definition started (w : world) (st : state) : state :=
  with_loading "block"
    (with_userInput ""
       (with_chatContainer
          (chatContainer st ++ [new_message w (trim (userInput st)) user]) st)).

(** The page [sendMessage] leaves, from the completion of its [try]
    block: the [catch] clause for a throw, then [finally]. *)
Definition finished (w : world) (r : completion unit * state) : state :=
  match r with
  | (Normal _, st') => with_loading "none" st'
  | (Throw e, st') =>
      with_loading "none"
        (with_chatContainer
           (chatContainer st' ++ [new_message w ("Error: " ++ message e) assistant])
           st')
  end.

(** What [calculateCyclePhase] returns or throws for an answer of the
    calculation service. *)
Definition cycle_phase_of (f : fetched) : completion value :=
  match f with
  | Rejected e => Throw e
  | Resolved r =>
      if ok r then
        match json r with
        | inl e => Throw e
        | inr data => check_success data
        end
      else Throw (Error "Failed to calculate cycle phase")
  end.

(** The text of the reply, or what is thrown, for an answer of the
    completion service. The status of the response is not looked at. *)
Definition reply_of (f : fetched) : completion string :=
  match f with
  | Rejected e => Throw e
  | Resolved r =>
      match json r with
      | inl e => Throw e
      | inr data => markdownText data
      end
  end.

(** The requests one send makes and the text of the assistant message it
    appends, once the setup is there: [message] is the trimmed input, [d]
    and [n] the two variables of the setup. *)
Definition turn (w : world) (message d : string) (n : number) : list request * string :=
  let calc := calculate_cycle_request w d n in
  match cycle_phase_of (fetch w calc) with
  | Throw e => ([calc], "Error: " ++ Host.message e)
  | Normal cycleInfo =>
      match cycleInfoText cycleInfo with
      | Throw e => ([calc], "Error: " ++ Host.message e)
      | Normal text =>
          let chat := chat_request (prompt text message) in
          match reply_of (fetch w chat) with
          | Throw e => ([calc; chat], "Error: " ++ Host.message e)
          | Normal reply => ([calc; chat], reply)
          end
      end
  end.

(** The page after a send that made the requests [reqs] and was answered
    with [text]. *)
Definition after_send (w : world) (st : state) (reqs : list request) (text : string) : state :=
  with_loading "none"
    (with_requests (requests st ++ reqs)
       (with_chatContainer
          (chatContainer st ++
             [new_message w (trim (userInput st)) user; new_message w text assistant])
          (with_userInput "" st))).

(** A send appends the message of the user, then [text] from the
    assistant, and nothing else. *)
Definition appended (w : world) (st : state) (text : string) : Prop :=
  chatContainer (exec (sendMessage w) st) =
    (chatContainer st ++
       [new_message w (trim (userInput st)) user; new_message w text assistant])%list.

(** The message of the [Error] of line 60 for the [error] member of the
    answer: [data.error || 'Unknown error occurred'], as a string. *)
Definition error_text (error : value) : string :=
  if truthy error then
    match ToString error with
    | Normal s => s
    | Throw e => message e
    end
  else "Unknown error occurred".

(** A response that reports a failure: a status outside 200 to 299, or a
    body whose success flag is false. *)
Definition reports_failure (r : response) : Prop :=
  ok r = false \/
  exists data, json r = inr data /\ get data (Field "success") = Normal (VBool false).

(** A page between two handlers: the setup date, once there, is not the
    empty string, and the loading indicator is not shown by the script. *)
Definition at_rest (st : state) : Prop :=
  userLastPeriodDate st <> Some "" /\ (loading st = "" \/ loading st = "none").

(** A computation that leaves the chat log as it found it. *)
Definition silent {A : Type} (c : M A) : Prop :=
  forall st, chatContainer (snd (c st)) = chatContainer st.

(** A computation that appends one assistant message when it completes
    normally, and nothing when it throws. *)
Definition replies_once {A : Type} (w : world) (c : M A) : Prop :=
  forall st,
    match c st with
    | (Normal _, st') =>
        exists text,
          chatContainer st' = (chatContainer st ++ [new_message w text assistant])%list
    | (Throw _, st') => chatContainer st' = chatContainer st
    end.

(** Two tildes side by side somewhere in a string. *)
Fixpoint double_tilde (s : string) : bool :=
  match s with
  | EmptyString => false
  | String c r =>
      match r with
      | String c' _ => (Ascii.eqb c "~" && Ascii.eqb c' "~") || double_tilde r
      | EmptyString => false
      end
  end.

(** ** Pages and worlds to run the handlers on *)

Module Examples.

(** A world whose calculation service answers [calc] and whose completion
    service answers [chat], on 5 January 2025, without the Markdown
    library. *)
Definition world_of (calc chat : fetched) : world :=
  {| now := "2025-01-05T09:30:00.000Z";
     fetch := fun req =>
       if String.eqb (url req) calculate_cycle_url then calc else chat;
     marked := None |}.

Definition answer (status : Z) (data : value) : fetched :=
  Resolved {| status := status; json := inr data |}.

Definition unreachable : fetched := Rejected (TypeError "Failed to fetch").

Definition menstrual_day_5 : value :=
  VObject [ ("success", VBool true);
            ("cycle_day", VNumber (Finite 5 0));
            ("phase", VString "menstrual") ].

Definition completion_with (content : value) : value :=
  VObject [ ("id", VString "gen-1");
            ("choices",
             VArray [VObject [("message",
                               VObject [("role", VString "assistant");
                                        ("content", content)])]]) ].

Definition rate_limited : value :=
  VObject [ ("success", VBool false);
            ("error", VObject [ ("message", VString "Rate limit exceeded");
                                ("code", VNumber (Finite 429 0)) ]) ].

Definition empty_error : value :=
  VObject [("success", VBool false); ("error", VString "")].

Definition calm_world : world :=
  world_of (answer 200 menstrual_day_5)
           (answer 200 (completion_with
              (VString "Cramps are common on day 5. ~~Rest~~ and warmth help."))).

Definition down_world : world := world_of unreachable unreachable.

(** The calculation service answers [status] and [data]. *)
Definition failing_world (status : Z) (data : value) : world :=
  world_of (answer status data) unreachable.

Definition empty_error_world : world := failing_world 200 empty_error.

Definition rate_limited_world : world :=
  world_of (answer 200 menstrual_day_5) (answer 429 rate_limited).

Definition no_choices_world : world :=
  world_of (answer 200 menstrual_day_5) (answer 200 (VObject [("id", VString "gen-2")])).

Definition empty_content_world : world :=
  world_of (answer 200 menstrual_day_5) (answer 200 (completion_with (VString ""))).

(** The page of a user who has typed a message before any setup. *)
Definition fresh_page : state :=
  run [Type_userInput "I feel crampy today"] (initial ∅).

(** The setup form filled with a date and nothing else, and with a date
    and a cycle length of zero. *)
Definition dated_form : state :=
  run [Type_setupLastPeriod "2025-01-01"] (initial ∅).

Definition zero_length_form : state :=
  run [Type_setupLastPeriod "2025-01-01"; Type_setupCycleLength "0"] (initial ∅).

(** The page of the example of the specification: setup done with
    2025-01-01 and an empty cycle length, then the message typed. *)
Definition crampy_page : state :=
  run [ Type_setupLastPeriod "2025-01-01";
        Click_completeSetup;
        Type_userInput "I feel crampy today" ] (initial ∅).

Definition crampy_info : string :=
  "The user is currently on cycle day 5, in the menstrual.".


(** Three sends: before the setup, after it, and with the network down. *)
Definition example_run : list event :=
  [ Type_userInput "hello"; Send calm_world;
    Type_setupLastPeriod "2025-01-01"; Click_completeSetup;
    Type_userInput "  I feel crampy today "; Send calm_world;
    Type_userInput "and tired"; Send down_world ].

End Examples.

Import Examples.

(** ** Four sentences of the specification, as it states them

    The script does not meet these as they stand; each is refuted below
    and followed by the statement that does hold. *)

(** C9: every completed setup writes a positive integer. *)
Definition cycle_length_always_positive : Prop :=
  forall st : state,
    setupLastPeriodInput st <> "" ->
    is_positive_integer (userCycleLength (exec completeSetup st)).

(** C8, for an error member that is a string: the text after the prefix is
    that member whenever it is there. *)
Definition error_member_always_shown : Prop :=
  forall (w : world) (st : state) (d : string) (r : response) (data : value) (s : string),
    userLastPeriodDate st = Some d -> d <> "" -> trim (userInput st) <> "" ->
    fetch w (calculate_cycle_request w d (userCycleLength st)) = Resolved r ->
    ok r = true -> json r = inr data ->
    get data (Field "success") = Normal (VBool false) ->
    get data (Field "error") = Normal (VString s) ->
    appended w st ("Error: " ++ s).

(** C2, for a world whose two services answer [calc] and [chat]: a failure
    reported by either one ends in an assistant message that begins with
    the prefix. *)
Definition every_reported_failure_shown : Prop :=
  forall (w : world) (st : state) (d : string) (calc chat : response),
    userLastPeriodDate st = Some d -> d <> "" -> trim (userInput st) <> "" ->
    (forall req, url req = calculate_cycle_url -> fetch w req = Resolved calc) ->
    (forall req, url req = chat_completions_url -> fetch w req = Resolved chat) ->
    reports_failure calc \/ reports_failure chat ->
    exists text, appended w st ("Error: " ++ text).




(** ** Further descriptions of a send and of a run *)

(** What one send does, from the page it starts on: nothing for an empty
    input; otherwise the requests it makes and the text of the assistant,
    the request for the setup when the guard of line 82 holds. *)
Definition outcome (w : world) (st : state) : option (list request * string) :=
  if String.eqb (trim (userInput st)) "" then None
  else
    match userLastPeriodDate st with
    | None => Some ([], setup_request)
    | Some d =>
        if String.eqb d "" then Some ([], setup_request)
        else Some (turn w (trim (userInput st)) d (userCycleLength st))
    end.

(** What a list of requests of one send can be: none, the calculation
    alone, or the calculation followed by one completion request. *)
Definition one_send_requests (w : world) (reqs : list request) : Prop :=
  reqs = [] \/
  (exists d n, reqs = [calculate_cycle_request w d n]) \/
  (exists d n content, reqs = [calculate_cycle_request w d n; chat_request content]).

(** A service call that ends in an exception [e]: the [fetch] is rejected
    with [e], or it resolves and the body cannot be parsed; the calculation
    service is asked for its body only after an OK status. *)
Definition calculation_exception (f : fetched) (e : exn) : Prop :=
  f = Rejected e \/ exists r, f = Resolved r /\ ok r = true /\ json r = inl e.

Definition completion_exception (f : fetched) (e : exn) : Prop :=
  f = Rejected e \/ exists r, f = Resolved r /\ json r = inl e.

(** Two worlds with the same clock and renderer whose networks answer
    alike, but for the status of what the completion service resolves
    to. *)
Definition same_but_completion_status (w1 w2 : world) : Prop :=
  now w1 = now w2 /\
  marked w1 = marked w2 /\
  forall req,
    if String.eqb (url req) chat_completions_url then
      match fetch w1 req, fetch w2 req with
      | Rejected e1, Rejected e2 => e1 = e2
      | Resolved r1, Resolved r2 => json r1 = json r2
      | _, _ => False
      end
    else fetch w1 req = fetch w2 req.

(** An entry of the chat as [addMessage] builds it: the bubble class, and
    either the class of the user with the text set through [textContent],
    or the class of the assistant. *)
Definition built_by_addMessage (entry : message_div) : Prop :=
  bubble_className entry = "message-bubble" /\
  ((className entry = "message user" /\ exists text, bubble entry = textContent text) \/
   className entry = "message assistant").

(** The page with durable storage left out. *)
Definition forget_storage (st : state) : state := with_localStorage ∅ st.

Module MoreExamples.

Definition syntax_error : exn := Exn "SyntaxError" "Unexpected token < in JSON".

Definition unreadable (status : Z) : fetched :=
  Resolved {| status := status; json := inl syntax_error |}.

(** A world that knows the two services by their address and no other:
    the completion service answers [status] with a body that has a
    content. *)
Definition world_with_status (status : Z) : world :=
  {| now := "2025-01-05T09:30:00.000Z";
     fetch := fun req =>
       if String.eqb (url req) calculate_cycle_url then answer 200 menstrual_day_5
       else if String.eqb (url req) chat_completions_url then
         answer status (completion_with (VString "Rest and warmth help."))
       else unreachable;
     marked := None |}.

Definition unreadable_calculation_world : world := world_of (unreadable 200) unreachable.

Definition unreadable_completion_world : world :=
  world_of (answer 200 menstrual_day_5) (unreadable 200).

Definition null_completion_world : world :=
  world_of (answer 200 menstrual_day_5) (answer 200 VNull).

Definition numeric_content_world : world :=
  world_of (answer 200 menstrual_day_5)
           (answer 200 (completion_with (VNumber (Finite 42 0)))).

(** The calculation service answers OK with a body that has only
    [success]. *)
Definition bare_success_world : world :=
  world_of (answer 200 (VObject [("success", VBool true)]))
           (answer 200 (completion_with (VString "Take care."))).

(** The setup form with a date and a cycle length of white space. *)
Definition spaces_form : state :=
  run [Type_setupLastPeriod "2025-01-01"; Type_setupCycleLength "   "] (initial ∅).

(** The setup form with a date and a cycle length, and a message typed. *)
Definition filled_page : state :=
  run [ Type_setupLastPeriod "2025-02-10"; Type_setupCycleLength "30";
        Type_userInput " How am I? " ] (initial ∅).

Definition blank_page : state := run [Type_userInput "   "] crampy_page.

(** A renderer that wraps its text in a paragraph, and a world with it
    whose services answer with a failure and its reason. *)
Definition paragraph (text : string) : string := "<p>" ++ text ++ "</p>".

Definition rendering_world : world :=
  {| now := "2025-01-05T09:30:00.000Z";
     fetch := fun req =>
       answer 200 (VObject [("success", VBool false); ("error", VString "**bad** date")]);
     marked := Some paragraph |}.

End MoreExamples.

Import MoreExamples.

(** ** Sends in flight

    [sendMessage] is asynchronous. A call runs as far as its first
    [await]; what follows runs when the awaited promise has settled, and so
    on from [await] to [await]. In between the page handles whatever comes:
    the user types, confirms the setup, sends again, another send goes
    on. Nothing in the script keeps a second send from starting while one
    waits.

    The stretches of a send are those of the source. The call itself runs
    lines 70 to 91 and the call of [calculateCyclePhase] up to the [fetch]
    of line 41, whose arguments are read there and then; the answer of the
    calculation service is awaited at line 41, its body at line 57 (the
    [await] of line 88 then goes on with no event in between that the page
    could see); the answer of the completion service is awaited at line 98
    and its body at line 121. *)

(** A send that waits, with the world it was started in, its [message] and
    what will settle the promise it waits for. *)
Inductive task : Type :=
  | Await_calculation (w : world) (message : string) (f : fetched)
  | Await_calculation_json (w : world) (message : string) (r : response)
  | Await_completion (w : world) (message : string) (f : fetched)
  | Await_completion_json (w : world) (message : string) (r : response).

Definition task_world (t : task) : world :=
  match t with
  | Await_calculation w _ _ | Await_calculation_json w _ _
  | Await_completion w _ _ | Await_completion_json w _ _ => w
  end.

Definition task_message (t : task) : string :=
  match t with
  | Await_calculation _ m _ | Await_calculation_json _ m _
  | Await_completion _ m _ | Await_completion_json _ m _ => m
  end.

(** How far a resumed send gets: to its next [await], having made the
    requests [reqs], or to its end, where it shows [text] as the assistant
    (the reply, or the message of the [catch] clause) and hides the loading
    indicator. *)
Inductive progress : Type :=
  | Suspended (reqs : list request) (t : task)
  | Replied (text : string).

(** The [catch] clause, lines 132 to 134. *)
Definition caught (e : exn) : progress := Replied ("Error: " ++ message e).

Definition sendMessage_resume (t : task) : progress :=
  match t with
  | Await_calculation w message f =>
      match f with
      | Rejected e => caught e
      | Resolved response =>
          if negb (ok response) then caught (Error "Failed to calculate cycle phase")
          else Suspended [] (Await_calculation_json w message response)
      end
  | Await_calculation_json w message response =>
      match json response with
      | inl e => caught e
      | inr data =>
          match check_success data with
          | Throw e => caught e
          | Normal cycleInfo =>
              match cycleInfoText cycleInfo with
              | Throw e => caught e
              | Normal text =>
                  let req := chat_request (prompt text message) in
                  Suspended [req] (Await_completion w message (fetch w req))
              end
          end
      end
  | Await_completion w message f =>
      match f with
      | Rejected e => caught e
      | Resolved response => Suspended [] (Await_completion_json w message response)
      end
  | Await_completion_json w message response =>
      match json response with
      | inl e => caught e
      | inr data =>
          match markdownText data with
          | Throw e => caught e
          | Normal reply => Replied reply
          end
      end
  end.

(** The call of [sendMessage], up to its first [await] or, for an empty
    input or a missing setup, to its end. *)
Definition sendMessage_begin (w : world) (st : state) : state * option task :=
  let message := trim (userInput st) in
  if String.eqb message "" then (st, None)
  else
    let st1 := started w st in
    match userLastPeriodDate st1 with
    | None => (finished w (ask_for_setup w st1), None)
    | Some lastPeriodDate =>
        if String.eqb lastPeriodDate "" then (finished w (ask_for_setup w st1), None)
        else
          let req := calculate_cycle_request w lastPeriodDate (userCycleLength st1) in
          (with_requests (requests st1 ++ [req]) st1,
           Some (Await_calculation w message (fetch w req)))
    end.

(** The page and the sends that wait, oldest first. *)
Record browser : Type := {
  page : state;
  in_flight : list task
}.

Definition idle (st : state) : browser := {| page := st; in_flight := [] |}.

(** What happens next: the page handles an event, or the promise the
    [i]-th waiting send waits for settles. *)
Inductive action : Type :=
  | Handle (ev : event)
  | Settle (i : nat).

Definition settle (i : nat) (b : browser) : browser :=
  match in_flight b !! i with
  | None => b
  | Some t =>
      match sendMessage_resume t with
      | Suspended reqs t' =>
          {| page := with_requests (requests (page b) ++ reqs) (page b);
             in_flight := <[i := t']> (in_flight b) |}
      | Replied text =>
          {| page :=
               with_loading "none"
                 (with_chatContainer
                    (chatContainer (page b) ++ [new_message (task_world t) text assistant])
                    (page b));
             in_flight := delete i (in_flight b) |}
      end
  end.

Definition act (a : action) (b : browser) : browser :=
  match a with
  | Handle (Send w) =>
      match sendMessage_begin w (page b) with
      | (st, Some t) => {| page := st; in_flight := in_flight b ++ [t] |}
      | (st, None) => {| page := st; in_flight := in_flight b |}
      end
  | Handle ev => {| page := step ev (page b); in_flight := in_flight b |}
  | Settle i => settle i b
  end.

Fixpoint play (acts : list action) (b : browser) : browser :=
  match acts with
  | [] => b
  | a :: acts' => play acts' (act a b)
  end.

(** The text a send ends with, from the page it starts on. *)
Definition reply_text (w : world) (st : state) : string :=
  match outcome w st with
  | Some (_, text) => text
  | None => ""
  end.

(** The sends started in a play, in the order of the calls: the world, the
    trimmed input and the text of the assistant. *)
Fixpoint started_sends (acts : list action) (b : browser) : list (world * string * string) :=
  match acts with
  | [] => []
  | a :: acts' =>
      match a with
      | Handle (Send w) =>
          (w, trim (userInput (page b)), reply_text w (page b))
            :: started_sends acts' (act a b)
      | _ => started_sends acts' (act a b)
      end
  end.

(** No send is started while another waits. *)
Fixpoint one_at_a_time (acts : list action) (b : browser) : bool :=
  match acts with
  | [] => true
  | a :: acts' =>
      match a, in_flight b with
      | Handle (Send _), _ :: _ => false
      | _, _ => one_at_a_time acts' (act a b)
      end
  end.

(** The events of a run with every send followed to its end, through its
    four [await]s, before the next event. *)
Definition serial (evs : list event) : list action :=
  flat_map
    (fun ev =>
       match ev with
       | Send _ => [Handle ev; Settle 0; Settle 0; Settle 0; Settle 0]
       | _ => [Handle ev]
       end) evs.

(** The two entries of one send. *)
Definition user_entry (t : world * string * string) : message_div :=
  let '(w, message, _) := t in new_message w message user.

Definition assistant_entry (t : world * string * string) : message_div :=
  let '(w, _, text) := t in new_message w text assistant.

Definition strand (t : world * string * string) : list message_div :=
  [user_entry t; assistant_entry t].

Definition is_user (entry : message_div) : bool :=
  String.eqb (className entry) "message user".

(** [l] interleaves the [strands]: its elements are taken one after the
    other from the head of some strand, until every strand is empty. Each
    strand keeps its order in [l]. *)
Inductive shuffle {A : Type} : list (list A) -> list A -> Prop :=
  | shuffle_done strands :
      Forall (fun s => s = []) strands -> shuffle strands []
  | shuffle_take strands i x s l :
      strands !! i = Some (x :: s) ->
      shuffle (<[i := s]> strands) l ->
      shuffle strands (x :: l).

(** C5, as the specification states it: once the sends have completed, the
    chat log has grown by their entries in send order, the message of the
    user followed by one message of the assistant for each. *)
Definition log_in_send_order : Prop :=
  forall (acts : list action) (st : state),
    Forall (fun t : world * string * string => snd (fst t) <> "")
      (started_sends acts (idle st)) ->
    in_flight (play acts (idle st)) = [] ->
    exists replies : list string,
      length replies = length (started_sends acts (idle st)) /\
      chatContainer (page (play acts (idle st))) =
        (chatContainer st ++
           transcript (map fst (started_sends acts (idle st))) replies)%list.

(** Two sends, the second one started while the first one waits. *)
Definition overlapping_sends : list action :=
  [ Handle (Send calm_world);
    Handle (Type_userInput "and tired");
    Handle (Send calm_world);
    Settle 0; Settle 0; Settle 0; Settle 0;
    Settle 0; Settle 0; Settle 0; Settle 0 ].

(** *** For the proofs: what a waiting send will answer *)

Definition text_of (c : completion string) : string :=
  match c with
  | Normal text => text
  | Throw e => "Error: " ++ message e
  end.

Definition reply_after (w : world) (message : string) (c : completion value) : string :=
  match c with
  | Throw e => "Error: " ++ Host.message e
  | Normal cycleInfo =>
      match cycleInfoText cycleInfo with
      | Throw e => "Error: " ++ Host.message e
      | Normal text => text_of (reply_of (fetch w (chat_request (prompt text message))))
      end
  end.

Definition task_reply (t : task) : string :=
  match t with
  | Await_calculation w message f => reply_after w message (cycle_phase_of f)
  | Await_calculation_json w message r =>
      reply_after w message
        (match json r with inl e => Throw e | inr data => check_success data end)
  | Await_completion _ _ f => text_of (reply_of f)
  | Await_completion_json _ _ r => text_of (reply_of (Resolved r))
  end.

Definition task_turn (t : task) : world * string * string :=
  (task_world t, task_message t, task_reply t).

(** A send begun so far: over, or waiting. *)
Inductive slot : Type :=
  | Closed (t : world * string * string)
  | Open (t : task).

Definition slot_turn (s : slot) : world * string * string :=
  match s with
  | Closed t => t
  | Open t => task_turn t
  end.

Definition slot_entries (s : slot) : list message_div :=
  match s with
  | Closed t => strand t
  | Open t => [user_entry (task_turn t)]
  end.

Definition open_task (s : slot) : option task :=
  match s with
  | Closed _ => None
  | Open t => Some t
  end.

(** The page and the waiting sends agree with the sends begun so far: the
    tasks in flight are the open ones, and what has been appended to [log]
    interleaves the entries of all of them, the messages of the users in
    the order of the calls. *)
Definition begun (log : list message_div) (b : browser) (slots : list slot) : Prop :=
  omap open_task slots = in_flight b /\
  exists added,
    chatContainer (page b) = (log ++ added)%list /\
    shuffle (map slot_entries slots) added /\
    List.filter is_user added = map user_entry (map slot_turn slots).

(** * Properties *)

(** ** Numbers *)

(** [Number] on a few strings: a plain integer, a fraction that is no
    double, an integer above 2^53, a literal beyond the range, one below
    it, the largest double and the first literal that is infinite. *)
Lemma Number_rounds :
  Number (inl "30") = Finite 3 1 /\
  Number (inl "0.1") =
    Finite 1000000000000000055511151231257827021181583404541015625 (-55) /\
  Number (inl "9007199254740993") = Finite 9007199254740992 0 /\
  Number (inl "1e400") = Infinity false /\
  Number (inl "-1e400") = Infinity true /\
  Number (inl "1e-400") = Finite 0 0 /\
  Number (inl "1.7976931348623158e308") = Number (inl "1.7976931348623157e308") /\
  Number (inl "1.7976931348623159e308") = Infinity false /\
  Number (inl "0x1F") = Finite 31 0 /\
  Number (inl "12px") = NaN.
Proof. vm_compute. repeat split. Qed.

(** What [localStorage.setItem] stores for them. *)
Lemma NumberToString_shortest :
  NumberToString (Number (inl "30")) = "30" /\
  NumberToString (Number (inl "0.1")) = "0.1" /\
  NumberToString (Number (inl "9007199254740993")) = "9007199254740992" /\
  NumberToString (Number (inl "1e400")) = "Infinity" /\
  NumberToString (Number (inl "1e21")) = "1e+21" /\
  NumberToString (Number (inl "123456789012345678901")) = "123456789012345680000" /\
  NumberToString (Number (inl "0.0000001")) = "1e-7" /\
  NumberToString (Number (inl "5e-324")) = "5e-324" /\
  NumberToString (Number (inl "1.7976931348623158e308")) = "1.7976931348623157e+308" /\
  NumberToString (Number (inl "-2.50")) = "-2.5" /\
  NumberToString (Number (inl "abc")) = "NaN".
Proof. vm_compute. repeat split. Qed.

(** ** Strings *)

Lemma string_app_assoc (a b c : string) : (a ++ b) ++ c = a ++ (b ++ c).
Proof.
  induction a as [|x a IH]; [reflexivity|].
  change (String x ((a ++ b) ++ c) = String x (a ++ (b ++ c))). now f_equal.
Qed.

Lemma contains_refl s : contains s s.
Proof.
  exists "", "". change (s = s ++ ""). induction s as [|c s IH]; [reflexivity|].
  change (String c s = String c (s ++ "")). now f_equal.
Qed.

Lemma contains_app_l s q x : contains s x -> contains (s ++ q) x.
Proof.
  intros (pre & post & ->). exists pre, (post ++ q).
  now rewrite !string_app_assoc.
Qed.

Lemma contains_app_r p s x : contains s x -> contains (p ++ s) x.
Proof.
  intros (pre & post & ->). exists (p ++ pre), post.
  now rewrite !string_app_assoc.
Qed.

(** The prompt holds the cycle information and the message of the user. *)
Lemma prompt_contains_info text m x : contains text x -> contains (prompt text m) x.
Proof. intros H. unfold prompt. now apply contains_app_r, contains_app_l. Qed.

Lemma prompt_contains_message text m : contains (prompt text m) m.
Proof. unfold prompt. do 3 apply contains_app_r. apply contains_refl. Qed.

Lemma remove_tildes_other c r :
  Ascii.eqb c "~" = false -> remove_tildes (String c r) = String c (remove_tildes r).
Proof. intros H. destruct r as [|c' r']; cbn; now rewrite ?H. Qed.

Lemma remove_tildes_pair c c' r :
  remove_tildes (String c (String c' r)) =
    if Ascii.eqb c "~" && Ascii.eqb c' "~" then remove_tildes r
    else String c (remove_tildes (String c' r)).
Proof. reflexivity. Qed.

Lemma double_tilde_cons c s :
  double_tilde (String c s) =
    match s with
    | String c' _ => (Ascii.eqb c "~" && Ascii.eqb c' "~") || double_tilde s
    | EmptyString => false
    end.
Proof. reflexivity. Qed.

(** The replacement is global: no double tilde is left. *)
Lemma remove_tildes_none_left s : double_tilde (remove_tildes s) = false.
Proof.
  assert (G : forall n s, (String.length s <= n)%nat -> double_tilde (remove_tildes s) = false).
  { clear s. induction n as [|n IH]; intros [|c [|c' r']] Hlen; cbn in Hlen;
      try reflexivity; try lia.
    rewrite remove_tildes_pair.
    assert (T : double_tilde (remove_tildes (String c' r')) = false)
      by (apply IH; cbn; lia).
    destruct (Ascii.eqb c "~") eqn:Hc; destruct (Ascii.eqb c' "~") eqn:Hc'; cbn [andb].
    - apply IH. lia.
    - rewrite double_tilde_cons, T.
      rewrite (remove_tildes_other c' r' Hc'), Hc', Hc. reflexivity.
    - rewrite double_tilde_cons, T, Hc. now destruct (remove_tildes _).
    - rewrite double_tilde_cons, T, Hc. now destruct (remove_tildes _). }
  apply (G (String.length s)). lia.
Qed.

(** ** The page *)

(** Unfolds the writes to the page down to one record. *)
Ltac page_simpl :=
  unfold after_send, finished, started, ask_for_setup, addMessage, alert, setItem,
    modify, gets, mbind, M_bind, mret, M_ret,
    with_userLastPeriodDate, with_userCycleLength, with_setupLastPeriodInput,
    with_setupCycleLengthInput, with_setupScreen, with_userInput, with_loading,
    with_chatContainer, with_localStorage, with_alerts, with_requests;
  cbn.

Lemma started_setup w st :
  userLastPeriodDate (started w st) = userLastPeriodDate st /\
  userCycleLength (started w st) = userCycleLength st.
Proof. now destruct st. Qed.

Lemma chatContainer_after_send w st reqs text :
  chatContainer (after_send w st reqs text) =
    (chatContainer st ++
       [new_message w (trim (userInput st)) user; new_message w text assistant])%list.
Proof. now destruct st. Qed.

Lemma requests_after_send w st reqs text :
  requests (after_send w st reqs text) = (requests st ++ reqs)%list.
Proof. now destruct st. Qed.

(** ** The handlers, equation by equation *)

Lemma completeSetup_empty st :
  setupLastPeriodInput st = "" ->
  exec completeSetup st = with_alerts (alerts st ++ [date_prompt]) st.
Proof. intros H. unfold exec, completeSetup, mbind, M_bind, gets. now rewrite H. Qed.

Lemma completeSetup_done st :
  setupLastPeriodInput st <> "" ->
  exec completeSetup st =
    with_setupScreen "none"
      (with_localStorage
         (<["cycleLength" := NumberToString (Number (cycleLength_of (setupCycleLengthInput st)))]>
            (<["lastPeriodDate" := setupLastPeriodInput st]> (localStorage st)))
         (with_userCycleLength (Number (cycleLength_of (setupCycleLengthInput st)))
            (with_userLastPeriodDate (Some (setupLastPeriodInput st)) st))).
Proof.
  intros H. destruct st as [d n lp cl ss ui ld cc ls al rq]. cbn in *.
  unfold exec, completeSetup, mbind, M_bind, gets. cbn.
  destruct (String.eqb_spec lp "") as [E|_]; [easy|].
  reflexivity.
Qed.

Lemma sendMessage_empty w st :
  trim (userInput st) = "" -> sendMessage w st = (Normal tt, st).
Proof.
  intros H. unfold sendMessage, mbind, M_bind, gets. now rewrite H.
Qed.

Lemma sendMessage_nonempty w st :
  trim (userInput st) <> "" ->
  sendMessage w st =
    (Normal tt, finished w (sendMessage_try w (trim (userInput st)) (started w st))).
Proof.
  intros H. unfold sendMessage, mbind, M_bind, gets.
  destruct (String.eqb_spec (trim (userInput st)) "") as [E|_]; [easy|].
  cbn. unfold try_catch_finally, started, finished.
  destruct (sendMessage_try _ _ _) as [[[]|e] st']; reflexivity.
Qed.

Lemma calculateCyclePhase_eq w d n st :
  calculateCyclePhase w d n st =
    (cycle_phase_of (fetch w (calculate_cycle_request w d n)),
     with_requests (requests st ++ [calculate_cycle_request w d n]) st).
Proof.
  unfold calculateCyclePhase, mbind, M_bind, await_fetch, cycle_phase_of.
  destruct (fetch w _) as [e|r]; [reflexivity|].
  destruct (ok r); cbn; [|reflexivity].
  unfold await_json. destruct (json r) as [e|data]; reflexivity.
Qed.

Lemma sendMessage_reply_eq w m cycleInfo st :
  sendMessage_reply w m cycleInfo st =
    match cycleInfoText cycleInfo with
    | Throw e => (Throw e, st)
    | Normal text =>
        let st1 := with_requests (requests st ++ [chat_request (prompt text m)]) st in
        match reply_of (fetch w (chat_request (prompt text m))) with
        | Throw e => (Throw e, st1)
        | Normal reply =>
            (Normal tt,
             with_chatContainer (chatContainer st1 ++ [new_message w reply assistant]) st1)
        end
    end.
Proof.
  unfold sendMessage_reply, mbind, M_bind, lift, await_fetch, reply_of.
  destruct (cycleInfoText cycleInfo) as [text|e]; [|reflexivity].
  destruct (fetch w _) as [e|r]; [reflexivity|].
  unfold await_json. destruct (json r) as [e|data]; [reflexivity|]. cbn.
  destruct (markdownText data); reflexivity.
Qed.

Lemma sendMessage_try_no_setup w m st :
  userLastPeriodDate st = None -> sendMessage_try w m st = ask_for_setup w st.
Proof. intros H. unfold sendMessage_try, mbind, M_bind, gets. now rewrite H. Qed.

Lemma sendMessage_try_setup w m st d :
  userLastPeriodDate st = Some d -> d <> "" ->
  sendMessage_try w m st =
    (calculateCyclePhase w d (userCycleLength st) ≫= sendMessage_reply w m) st.
Proof.
  intros H Hd. unfold sendMessage_try at 1. unfold mbind at 1. unfold M_bind at 1.
  unfold gets at 1. rewrite H.
  destruct (String.eqb_spec d "") as [E|_]; [easy|]. reflexivity.
Qed.

Lemma sendMessage_no_setup w st :
  userLastPeriodDate st = None -> trim (userInput st) <> "" ->
  exec (sendMessage w) st = after_send w st [] setup_request.
Proof.
  intros H Hm. unfold exec. rewrite (sendMessage_nonempty w st Hm). cbn [snd].
  rewrite sendMessage_try_no_setup by now rewrite (proj1 (started_setup w st)).
  destruct st. page_simpl. now rewrite <- app_assoc, app_nil_r.
Qed.

Lemma sendMessage_setup w st d :
  userLastPeriodDate st = Some d -> d <> "" -> trim (userInput st) <> "" ->
  exec (sendMessage w) st =
    after_send w st (fst (turn w (trim (userInput st)) d (userCycleLength st)))
                    (snd (turn w (trim (userInput st)) d (userCycleLength st))).
Proof.
  intros H Hd Hm. unfold exec. rewrite (sendMessage_nonempty w st Hm). cbn [snd].
  rewrite (sendMessage_try_setup w _ (started w st) d)
    by (now rewrite (proj1 (started_setup w st)) || exact Hd).
  unfold mbind at 1. unfold M_bind at 1.
  rewrite calculateCyclePhase_eq, (proj2 (started_setup w st)).
  unfold turn.
  destruct (cycle_phase_of _) as [cycleInfo|e].
  - rewrite sendMessage_reply_eq.
    destruct (cycleInfoText cycleInfo) as [text|e].
    + cbv zeta. destruct (reply_of _) as [reply|e];
        destruct st; page_simpl; now rewrite <- !app_assoc.
    + destruct st; page_simpl; now rewrite <- !app_assoc.
  - destruct st; page_simpl; now rewrite <- !app_assoc.
Qed.

(** ** What a computation does to the chat log *)

Create HintDb chat_log.

Lemma silent_ret {A : Type} (a : A) : silent (mret a).
Proof. intros st. reflexivity. Qed.

Lemma silent_throw {A : Type} (e : exn) : silent (@throw A e).
Proof. intros st. reflexivity. Qed.

Lemma silent_lift {A : Type} (c : completion A) : silent (lift c).
Proof. intros st. reflexivity. Qed.

Lemma silent_gets {A : Type} (f : state -> A) : silent (gets f).
Proof. intros st. reflexivity. Qed.

Lemma silent_bind {A B : Type} (c : M A) (f : A -> M B) :
  silent c -> (forall a, silent (f a)) -> silent (c ≫= f).
Proof.
  intros Hc Hf st. unfold mbind, M_bind.
  specialize (Hc st). destruct (c st) as [[a|e] st1]; simpl in *.
  - rewrite Hf. exact Hc.
  - exact Hc.
Qed.

Lemma silent_if {A : Type} (b : bool) (c1 c2 : M A) :
  silent c1 -> silent c2 -> silent (if b then c1 else c2).
Proof. destruct b; auto. Qed.

Lemma silent_await_fetch w req : silent (await_fetch w req).
Proof. intros []. unfold await_fetch. destruct (fetch w req); reflexivity. Qed.

Lemma silent_await_json r : silent (await_json r).
Proof. intros st. unfold await_json. destruct (json r); reflexivity. Qed.

#[local] Hint Resolve silent_ret silent_throw silent_lift silent_gets silent_bind
  silent_if silent_await_fetch silent_await_json : chat_log.

Lemma silent_calculateCyclePhase w d n : silent (calculateCyclePhase w d n).
Proof. unfold calculateCyclePhase. auto 8 with chat_log. Qed.

#[local] Hint Resolve silent_calculateCyclePhase : chat_log.

Section Replies.

Context (w : world).

Lemma replies_once_bind {A B : Type} (c : M A) (f : A -> M B) :
  silent c -> (forall a, replies_once w (f a)) -> replies_once w (c ≫= f).
Proof.
  intros Hc Hf st. unfold mbind, M_bind.
  specialize (Hc st). destruct (c st) as [[a|e] st1]; simpl in *.
  - specialize (Hf a st1). destruct (f a st1) as [[b|e] st2].
    + destruct Hf as [text Ht]. exists text. now rewrite Ht, Hc.
    + now rewrite Hf.
  - exact Hc.
Qed.

Lemma replies_once_addMessage text : replies_once w (addMessage w text assistant).
Proof. intros []. cbn. now exists text. Qed.

Lemma replies_once_ask_for_setup : replies_once w (ask_for_setup w).
Proof. intros []. cbn. now exists setup_request. Qed.

Hint Resolve replies_once_bind replies_once_addMessage replies_once_ask_for_setup
  : chat_log.

Lemma replies_once_sendMessage_reply m cycleInfo :
  replies_once w (sendMessage_reply w m cycleInfo).
Proof. unfold sendMessage_reply. auto 8 with chat_log. Qed.

Lemma replies_once_sendMessage_try m : replies_once w (sendMessage_try w m).
Proof.
  unfold sendMessage_try.
  apply replies_once_bind; [apply silent_gets|]. intros [d|]; [|auto with chat_log].
  destruct (String.eqb d ""); [auto with chat_log|].
  pose proof replies_once_sendMessage_reply. auto 6 with chat_log.
Qed.

(** A send of a non-empty input appends the message of the user and then
    one message of the assistant. *)
Lemma sendMessage_appends st :
  trim (userInput st) <> "" -> exists reply, appended w st reply.
Proof.
  intros H. unfold appended, exec. rewrite (sendMessage_nonempty w st H). cbn [snd].
  pose proof (replies_once_sendMessage_try (trim (userInput st)) (started w st)) as Ht.
  destruct (sendMessage_try w (trim (userInput st)) (started w st)) as [[[]|e] st1].
  - destruct Ht as [text Ht]. exists text.
    destruct st, st1; cbn in *. rewrite Ht. now rewrite <- app_assoc.
  - exists ("Error: " ++ message e).
    destruct st, st1; cbn in *. rewrite Ht. now rewrite <- app_assoc.
Qed.

End Replies.

Lemma chatContainer_completeSetup st :
  chatContainer (exec completeSetup st) = chatContainer st.
Proof.
  destruct (String.eqb_spec (setupLastPeriodInput st) "") as [E|N].
  - rewrite (completeSetup_empty st E). now destruct st.
  - rewrite (completeSetup_done st N). now destruct st.
Qed.

Lemma chatContainer_step_other ev st :
  (forall w, ev <> Send w) -> chatContainer (step ev st) = chatContainer st.
Proof.
  intros H. destruct ev; try (now destruct st).
  - apply chatContainer_completeSetup.
  - now destruct (H w).
Qed.

Lemma sends_step_other ev evs st :
  (forall w, ev <> Send w) -> sends (ev :: evs) st = sends evs (step ev st).
Proof. intros H. destruct ev; try reflexivity. now destruct (H w). Qed.

Lemma length_transcript turns replies :
  length replies = length turns ->
  length (transcript turns replies) = (2 * length turns)%nat.
Proof.
  revert replies. induction turns as [|[w m] turns IH]; intros [|r replies] H;
    try discriminate; [reflexivity|].
  cbn [transcript length]. injection H as H. rewrite (IH replies H). lia.
Qed.

(** Over any run of the page (every send over before the next event) in
    which every send finds a non-empty trimmed input, the chat log grows by
    exactly two entries a send, in the order of the sends: the message of
    the user, then one message of the assistant, whichever way the send
    ended. What was in the log before stays in place in front of them, so
    after N sends the log is 2N entries longer. *)
Theorem chat_log_after_sends (evs : list event) (st : state) :
  Forall (fun turn : world * string => snd turn <> "") (sends evs st) ->
  exists replies : list string,
    length replies = length (sends evs st) /\
    chatContainer (run evs st) =
      (chatContainer st ++ transcript (sends evs st) replies)%list /\
    length (chatContainer (run evs st)) =
      (length (chatContainer st) + 2 * length (sends evs st))%nat.
Proof.
  revert st. induction evs as [|ev evs IH]; intros st H.
  - exists []. cbn. rewrite app_nil_r. split; [reflexivity|]. split; [reflexivity|lia].
  - destruct ev as [t|t|t| |w].
    5: {
      cbn [sends] in H. inversion H as [|x l Hm Hrest]; subst. cbn [snd] in Hm.
      destruct (IH _ Hrest) as (replies & Hlen & Hlog & Hn).
      destruct (sendMessage_appends w st Hm) as [reply Hreply]. unfold appended in Hreply.
      change (step (Send w) st) with (exec (sendMessage w) st) in *.
      exists (reply :: replies). cbn [sends run step].
      change (step (Send w) st) with (exec (sendMessage w) st).
      split; [cbn; now rewrite Hlen|]. split.
      - rewrite Hlog, Hreply, <- app_assoc. reflexivity.
      - rewrite Hn, Hreply, length_app. cbn. lia. }
    all: rewrite sends_step_other in * by discriminate;
      destruct (IH _ H) as (replies & Hlen & Hlog & Hn);
      exists replies; cbn [run];
      rewrite chatContainer_step_other in Hlog, Hn by discriminate;
      split; [exact Hlen|]; split; [exact Hlog|exact Hn].
Qed.

Lemma chat_log_after_sends_witness :
  length (chatContainer (run example_run (initial ∅))) = 6%nat /\
  exists replies : list string,
    chatContainer (run example_run (initial ∅)) =
      transcript
        [ (calm_world, "hello"); (calm_world, "I feel crampy today");
          (down_world, "and tired") ] replies.
Proof.
  destruct (chat_log_after_sends example_run (initial ∅)) as (replies & _ & Hlog & Hn).
  - vm_compute. repeat (constructor; [discriminate|]). constructor.
  - split; [exact Hn|]. exists replies. exact Hlog.
Defined.

(** ** The setup handler *)

(** C7. When the last-period field is empty, confirming the setup shows the
    alert and changes nothing else: the two variables keep their values,
    durable storage is not written, and the setup screen keeps its
    display. *)
Theorem completeSetup_empty_date (st : state) :
  setupLastPeriodInput st = "" ->
  exec completeSetup st = with_alerts (alerts st ++ [date_prompt]) st /\
  userLastPeriodDate (exec completeSetup st) = userLastPeriodDate st /\
  userCycleLength (exec completeSetup st) = userCycleLength st /\
  localStorage (exec completeSetup st) = localStorage st /\
  setupScreen (exec completeSetup st) = setupScreen st.
Proof.
  intros H. rewrite (completeSetup_empty st H).
  split; [reflexivity|]. now destruct st.
Qed.

Lemma completeSetup_empty_date_witness :
  exec completeSetup fresh_page = with_alerts [date_prompt] fresh_page /\
  userLastPeriodDate (exec completeSetup fresh_page) = None /\
  userCycleLength (exec completeSetup fresh_page) = Finite 28 0 /\
  localStorage (exec completeSetup fresh_page) = ∅ /\
  setupScreen (exec completeSetup fresh_page) = "".
Proof. apply (completeSetup_empty_date fresh_page). reflexivity. Defined.

(** C9, counterexample. With 0 in the cycle-length field the handler
    writes the number 0, and the string 0 to storage: the field is
    converted, not checked. *)
Lemma cycle_length_zero_accepted :
  userCycleLength (exec completeSetup zero_length_form) = Finite 0 0 /\
  localStorage (exec completeSetup zero_length_form) !! "cycleLength" = Some "0" /\
  ~ cycle_length_always_positive.
Proof.
  split; [reflexivity|]. split; [reflexivity|].
  intros claim.
  assert (F : is_positive_integer (Finite 0 0))
    by (apply (claim zero_length_form); discriminate).
  destruct F as [F _]. lia.
Qed.

(** C9, as the code has it. A completed setup writes [Number] of the
    cycle-length field, whatever number that is, to the variable, and its
    string to storage; when the field is empty the number is 28, a
    positive integer. *)
Theorem completeSetup_cycle_length (st : state) :
  setupLastPeriodInput st <> "" ->
  userLastPeriodDate (exec completeSetup st) = Some (setupLastPeriodInput st) /\
  userCycleLength (exec completeSetup st) =
    Number (cycleLength_of (setupCycleLengthInput st)) /\
  localStorage (exec completeSetup st) !! "cycleLength" =
    Some (NumberToString (userCycleLength (exec completeSetup st))) /\
  localStorage (exec completeSetup st) !! "lastPeriodDate" =
    Some (setupLastPeriodInput st) /\
  (setupCycleLengthInput st = "" ->
     userCycleLength (exec completeSetup st) = Finite 28 0 /\
     is_positive_integer (userCycleLength (exec completeSetup st)) /\
     localStorage (exec completeSetup st) !! "cycleLength" = Some "28").
Proof.
  intros H. rewrite (completeSetup_done st H).
  destruct st as [d n lp cl ss ui ld cc ls al rq]. cbn.
  split; [reflexivity|]. split; [reflexivity|].
  split; [apply lookup_insert_eq|].
  split; [rewrite lookup_insert_ne by discriminate; apply lookup_insert_eq|].
  intros E. rewrite E. cbn.
  split; [reflexivity|]. split; [lia|apply lookup_insert_eq].
Qed.

Lemma completeSetup_cycle_length_witness :
  userLastPeriodDate crampy_page = Some "2025-01-01" /\
  userCycleLength crampy_page = Finite 28 0 /\
  localStorage crampy_page !! "cycleLength" = Some "28".
Proof.
  destruct (completeSetup_cycle_length dated_form) as (H1 & _ & _ & _ & H5);
    [discriminate|].
  destruct (H5 eq_refl) as (H6 & _ & H7).
  split; [exact H1|]. split; [exact H6|exact H7].
Defined.

(** ** The message flow *)

(** C1. Without a setup ([userLastPeriodDate] still [null]) a send of a
    non-empty input calls [fetch] for neither service, and appends the
    message of the user followed by exactly one assistant message, the
    request to complete the setup. *)
Theorem send_without_setup (w : world) (st : state) :
  userLastPeriodDate st = None ->
  trim (userInput st) <> "" ->
  requests (exec (sendMessage w) st) = requests st /\
  appended w st setup_request.
Proof.
  intros H Hm. unfold appended. rewrite (sendMessage_no_setup w st H Hm). split.
  - rewrite requests_after_send. apply app_nil_r.
  - apply chatContainer_after_send.
Qed.

Lemma send_without_setup_witness :
  requests (exec (sendMessage calm_world) fresh_page) = [] /\
  chatContainer (exec (sendMessage calm_world) fresh_page) =
    [new_message calm_world "I feel crampy today" user;
     new_message calm_world setup_request assistant].
Proof.
  apply (send_without_setup calm_world fresh_page); [reflexivity|].
  vm_compute. discriminate.
Defined.

(** C6. A send that gets past the check of its input ends with the loading
    indicator hidden, whatever the services answered: normal completion,
    an exception of either call, or the early return of the missing setup.
    A send of an empty input returns at once and leaves a hidden indicator
    hidden. *)
Theorem loading_hidden_after_send (w : world) (st : state) :
  trim (userInput st) <> "" \/ loading st = "none" ->
  loading (exec (sendMessage w) st) = "none".
Proof.
  intros H.
  destruct (String.eqb_spec (trim (userInput st)) "") as [E|N].
  - destruct H as [H|H]; [easy|].
    unfold exec. now rewrite (sendMessage_empty w st E).
  - unfold exec. rewrite (sendMessage_nonempty w st N). cbn [snd].
    destruct (sendMessage_try _ _ _) as [[[]|e] []]; reflexivity.
Qed.

Lemma loading_hidden_after_send_witness :
  loading (exec (sendMessage down_world) crampy_page) = "none".
Proof.
  apply (loading_hidden_after_send down_world crampy_page).
  left. vm_compute. discriminate.
Defined.

(** *** A send once the setup is done *)

Lemma get_defined data k v k' :
  get data k = Normal v -> exists v', get data k' = Normal v'.
Proof. destruct data, k'; cbn; intros H; try discriminate; eauto. Qed.

Lemma check_success_falsy data success error :
  get data (Field "success") = Normal success -> truthy success = false ->
  get data (Field "error") = Normal error ->
  exists e, check_success data = Throw e /\ message e = error_text error.
Proof.
  intros Hs Hf He. unfold check_success, error_text.
  rewrite Hs. cbn. rewrite Hf. cbn. rewrite He. cbn.
  destruct (truthy error).
  - destruct (ToString error) as [s|e]; cbn; eauto.
  - cbn. eauto.
Qed.

Lemma markdownText_falsy data content :
  content_of data = Normal content -> truthy content = false ->
  markdownText data = Normal fallback.
Proof.
  intros Hc Hf. unfold markdownText. rewrite Hc. cbn. rewrite Hf. reflexivity.
Qed.

Lemma markdownText_string data s :
  content_of data = Normal (VString s) -> s <> "" ->
  markdownText data = Normal (remove_tildes s).
Proof.
  intros Hc Hs. unfold markdownText. rewrite Hc. cbn.
  destruct (String.eqb_spec s "") as [E|_]; [easy|reflexivity].
Qed.

Lemma content_of_no_choices data :
  get data (Field "choices") = Normal VUndefined -> content_of data = Normal VUndefined.
Proof. intros H. unfold content_of. rewrite H. reflexivity. Qed.

(** The completion service is never asked for its status. *)
Lemma reply_of_any_status s1 s2 body :
  reply_of (Resolved {| status := s1; json := body |}) =
  reply_of (Resolved {| status := s2; json := body |}).
Proof. reflexivity. Qed.

Section SetupDone.

(** A page with the setup done and a message to send, in some world. *)
Context (w : world) (st : state) (d : string).
Hypothesis setup : userLastPeriodDate st = Some d.
Hypothesis dated : d <> "".
Hypothesis typed : trim (userInput st) <> "".

Let calculation : request := calculate_cycle_request w d (userCycleLength st).

Lemma send_calculation_throws e :
  cycle_phase_of (fetch w calculation) = Throw e ->
  exec (sendMessage w) st = after_send w st [calculation] ("Error: " ++ message e).
Proof.
  intros He. rewrite (sendMessage_setup w st d setup dated typed).
  unfold turn. fold calculation. now rewrite He.
Qed.

Lemma send_reply cycleInfo text r data :
  cycle_phase_of (fetch w calculation) = Normal cycleInfo ->
  cycleInfoText cycleInfo = Normal text ->
  fetch w (chat_request (prompt text (trim (userInput st)))) = Resolved r ->
  json r = inr data ->
  exec (sendMessage w) st =
    after_send w st
      [calculation; chat_request (prompt text (trim (userInput st)))]
      match markdownText data with
      | Normal reply => reply
      | Throw e => "Error: " ++ message e
      end.
Proof.
  intros Hc Ht Hf Hj. rewrite (sendMessage_setup w st d setup dated typed).
  unfold turn. fold calculation. rewrite Hc, Ht. cbv zeta.
  unfold reply_of. rewrite Hf, Hj. now destruct (markdownText data).
Qed.

(** C8, as the code has it. With the setup done: a non-OK status from the
    calculation service makes [calculateCyclePhase] throw, and the message
    appended is exactly the one of line 54 after the prefix; an OK answer
    whose success flag is false gives the prefix followed by the text of
    its error member when that member is truthy (a non-empty string is
    shown as it is), and by the default text when the member is absent or
    falsy. *)
Theorem calculation_error_message (r : response) :
  fetch w calculation = Resolved r ->
  (ok r = false ->
     (forall st0, fst (calculateCyclePhase w d (userCycleLength st) st0) =
                    Throw (Error "Failed to calculate cycle phase")) /\
     appended w st "Error: Failed to calculate cycle phase") /\
  (ok r = true ->
     forall data error : value,
       json r = inr data ->
       get data (Field "success") = Normal (VBool false) ->
       get data (Field "error") = Normal error ->
       appended w st ("Error: " ++ error_text error) /\
       (forall s, error = VString s -> s <> "" -> error_text error = s) /\
       (error = VUndefined -> error_text error = "Unknown error occurred")).
Proof.
  intros Hf. split.
  - intros Hok.
    assert (T : cycle_phase_of (fetch w calculation) =
                Throw (Error "Failed to calculate cycle phase"))
      by (unfold cycle_phase_of; now rewrite Hf, Hok).
    split.
    + intros st0. rewrite calculateCyclePhase_eq. exact T.
    + unfold appended. rewrite (send_calculation_throws _ T).
      apply chatContainer_after_send.
  - intros Hok data error Hj Hs He. split; [|split].
    + destruct (check_success_falsy data (VBool false) error Hs eq_refl He)
        as (e & Hc & Hmsg).
      unfold appended. rewrite (send_calculation_throws e).
      * rewrite Hmsg. apply chatContainer_after_send.
      * unfold cycle_phase_of. now rewrite Hf, Hok, Hj.
    + intros s -> Hne. unfold error_text. cbn.
      destruct (String.eqb_spec s "") as [E|_]; [easy|reflexivity].
    + intros ->. reflexivity.
Qed.

(** C2, as the code has it. With the setup done, a non-OK status or a
    false success flag from the calculation service ends in an appended
    assistant message that begins with the prefix. *)
Theorem calculation_failure_shown (r : response) :
  fetch w calculation = Resolved r ->
  reports_failure r ->
  exists text, appended w st ("Error: " ++ text).
Proof.
  intros Hf Hr.
  assert (T : exists e, cycle_phase_of (Resolved r) = Throw e).
  { unfold cycle_phase_of. destruct (ok r) eqn:Hok; [|eauto].
    destruct Hr as [Hr|(data & Hj & Hs)]; [congruence|]. rewrite Hj.
    destruct (get_defined data _ _ (Field "error") Hs) as [error He].
    destruct (check_success_falsy data _ error Hs eq_refl He) as (e & Hc & _). eauto. }
  destruct T as [e He]. exists (message e). unfold appended.
  rewrite (send_calculation_throws e) by now rewrite Hf.
  apply chatContainer_after_send.
Qed.

(** C3. With the setup done and the cycle phase calculated, when the
    [fetch] of the completion service resolves and the parsed body has no
    [choices] member, the assistant message appended is exactly the
    fallback string. *)
Theorem reply_without_choices (cycleInfo : value) (text : string)
    (r : response) (data : value) :
  cycle_phase_of (fetch w calculation) = Normal cycleInfo ->
  cycleInfoText cycleInfo = Normal text ->
  fetch w (chat_request (prompt text (trim (userInput st)))) = Resolved r ->
  json r = inr data ->
  get data (Field "choices") = Normal VUndefined ->
  appended w st "I'm sorry — I couldn't generate a response.".
Proof.
  intros Hc Ht Hf Hj Hno. unfold appended.
  rewrite (send_reply cycleInfo text r data Hc Ht Hf Hj).
  rewrite (markdownText_falsy data VUndefined (content_of_no_choices data Hno) eq_refl).
  apply chatContainer_after_send.
Qed.

(** C10. With the setup done and the cycle phase calculated, when the body
    of the completion service does hold [choices[0].message.content] and
    that content is falsy, the empty string first of all, the assistant
    message appended is the fallback string and not the content. *)
Theorem reply_with_falsy_content (cycleInfo : value) (text : string)
    (r : response) (data content : value) :
  cycle_phase_of (fetch w calculation) = Normal cycleInfo ->
  cycleInfoText cycleInfo = Normal text ->
  fetch w (chat_request (prompt text (trim (userInput st)))) = Resolved r ->
  json r = inr data ->
  content_of data = Normal content ->
  content = VString "" \/ truthy content = false ->
  appended w st "I'm sorry — I couldn't generate a response.".
Proof.
  intros Hc Ht Hf Hj Hk Hfalsy. unfold appended.
  assert (F : truthy content = false) by (destruct Hfalsy as [->|E]; [reflexivity|exact E]).
  rewrite (send_reply cycleInfo text r data Hc Ht Hf Hj).
  rewrite (markdownText_falsy data content Hk F).
  apply chatContainer_after_send.
Qed.

End SetupDone.

Lemma crampy_page_ready :
  userLastPeriodDate crampy_page = Some "2025-01-01" /\
  "2025-01-01" <> "" /\
  trim (userInput crampy_page) <> "".
Proof. split; [reflexivity|]. split; [discriminate|]. vm_compute. discriminate. Qed.

(** C8, counterexample. The service answers 200 with
    [{success: false, error: ""}]: the member is there, and the message is
    the default one, because [||] takes the default for every falsy
    member. *)
Lemma empty_error_member_replaced :
  appended empty_error_world crampy_page "Error: Unknown error occurred" /\
  ~ error_member_always_shown.
Proof.
  assert (A : appended empty_error_world crampy_page "Error: Unknown error occurred")
    by (vm_compute; reflexivity).
  split; [exact A|]. intros claim.
  destruct crampy_page_ready as (R1 & R2 & R3).
  assert (B : appended empty_error_world crampy_page ("Error: " ++ "")).
  { apply (claim empty_error_world crampy_page "2025-01-01"
             {| status := 200; json := inr empty_error |} empty_error "" R1 R2 R3);
      reflexivity. }
  unfold appended in A, B. rewrite A in B.
  apply app_inv_head in B. vm_compute in B. discriminate B.
Qed.

Lemma calculation_error_message_witness :
  appended (failing_world 500 VNull) crampy_page "Error: Failed to calculate cycle phase" /\
  appended (failing_world 200 (VObject [("success", VBool false); ("error", VString "Invalid date")]))
    crampy_page "Error: Invalid date" /\
  appended (failing_world 200 (VObject [("success", VBool false)]))
    crampy_page "Error: Unknown error occurred".
Proof.
  destruct crampy_page_ready as (R1 & R2 & R3).
  split; [|split].
  - exact (proj2 (proj1 (calculation_error_message (failing_world 500 VNull) crampy_page
                    "2025-01-01" R1 R2 R3 _ eq_refl) eq_refl)).
  - exact (proj1 (proj2 (calculation_error_message
                    (failing_world 200 (VObject [("success", VBool false); ("error", VString "Invalid date")]))
                    crampy_page "2025-01-01" R1 R2 R3 _ eq_refl) eq_refl
                    _ (VString "Invalid date") eq_refl eq_refl eq_refl)).
  - exact (proj1 (proj2 (calculation_error_message
                    (failing_world 200 (VObject [("success", VBool false)]))
                    crampy_page "2025-01-01" R1 R2 R3 _ eq_refl) eq_refl
                    _ VUndefined eq_refl eq_refl eq_refl)).
Defined.

(** C2, counterexample. The completion service answers 429 with a body
    that has no [choices] and even a false [success]: [sendMessage] looks
    at neither, and appends the fallback text, which does not begin with
    the prefix. *)
Lemma completion_failure_not_shown :
  appended rate_limited_world crampy_page fallback /\
  ~ every_reported_failure_shown.
Proof.
  assert (A : appended rate_limited_world crampy_page fallback)
    by (vm_compute; reflexivity).
  split; [exact A|]. intros claim.
  destruct crampy_page_ready as (R1 & R2 & R3).
  destruct (claim rate_limited_world crampy_page "2025-01-01"
              {| status := 200; json := inr menstrual_day_5 |}
              {| status := 429; json := inr rate_limited |} R1 R2 R3) as [text B].
  - intros req E. cbn. now rewrite E.
  - intros req E. cbn. now rewrite E.
  - right. left. reflexivity.
  - unfold appended in A, B. rewrite A in B.
    apply app_inv_head in B. vm_compute in B. discriminate B.
Qed.

Lemma calculation_failure_shown_witness :
  exists text, appended (failing_world 503 VNull) crampy_page ("Error: " ++ text).
Proof.
  destruct crampy_page_ready as (R1 & R2 & R3).
  apply (calculation_failure_shown (failing_world 503 VNull) crampy_page "2025-01-01"
           R1 R2 R3 {| status := 503; json := inr VNull |}).
  - reflexivity.
  - left. reflexivity.
Defined.

Lemma reply_without_choices_witness :
  appended no_choices_world crampy_page "I'm sorry — I couldn't generate a response.".
Proof.
  destruct crampy_page_ready as (R1 & R2 & R3).
  apply (reply_without_choices no_choices_world crampy_page "2025-01-01" R1 R2 R3
           menstrual_day_5 crampy_info
           {| status := 200; json := inr (VObject [("id", VString "gen-2")]) |}
           (VObject [("id", VString "gen-2")]));
    reflexivity.
Defined.

Lemma reply_with_falsy_content_witness :
  appended empty_content_world crampy_page "I'm sorry — I couldn't generate a response.".
Proof.
  destruct crampy_page_ready as (R1 & R2 & R3).
  apply (reply_with_falsy_content empty_content_world crampy_page "2025-01-01" R1 R2 R3
           menstrual_day_5 crampy_info
           {| status := 200; json := inr (completion_with (VString "")) |}
           (completion_with (VString "")) (VString ""));
    try reflexivity.
  left. reflexivity.
Defined.

(** *** The example of the specification *)






(** ** Invariants of a run *)

(** A send changes the page as [after_send] says, or not at all. *)
Lemma sendMessage_frame w st :
  userLastPeriodDate st <> Some "" ->
  exec (sendMessage w) st = st \/
  exists reqs text, exec (sendMessage w) st = after_send w st reqs text.
Proof.
  intros Hd.
  destruct (String.eqb_spec (trim (userInput st)) "") as [E|N].
  - left. unfold exec. now rewrite (sendMessage_empty w st E).
  - right. destruct (userLastPeriodDate st) as [d|] eqn:H.
    + eexists _, _. apply (sendMessage_setup w st d H); [congruence|exact N].
    + eexists _, _. apply (sendMessage_no_setup w st H N).
Qed.

Lemma at_rest_step ev st : at_rest st -> at_rest (step ev st).
Proof.
  intros [Hd Hl]. destruct ev as [t|t|t| |w]; try (now destruct st).
  - cbn [step].
    destruct (String.eqb_spec (setupLastPeriodInput st) "") as [E|N].
    + rewrite (completeSetup_empty st E). now destruct st.
    + rewrite (completeSetup_done st N). destruct st; cbn in *.
      split; [|exact Hl]. intros E. injection E as E. exact (N E).
  - cbn [step]. destruct (sendMessage_frame w st Hd) as [->|(reqs & text & ->)].
    + now split.
    + destruct st; cbn in *. split; [exact Hd|now right].
Qed.

(** Whatever the user and the services do, the page is at rest after every
    handler: no send leaves the loading indicator shown, and the guard of
    line 82 lets a send through only with a real date. *)
Lemma at_rest_run evs storage : at_rest (run evs (initial storage)).
Proof.
  assert (G : forall st, at_rest st -> at_rest (run evs st)).
  { induction evs as [|ev evs IH]; intros st H; [exact H|].
    cbn [run]. apply IH, at_rest_step, H. }
  apply G. split; [discriminate|now left].
Qed.

(** * Further properties of the handlers *)

(** ** One send, on any page *)

Lemma sendMessage_try_empty_date w m st :
  userLastPeriodDate st = Some "" -> sendMessage_try w m st = ask_for_setup w st.
Proof. intros H. unfold sendMessage_try, mbind, M_bind, gets. now rewrite H. Qed.

Lemma sendMessage_empty_date w st :
  userLastPeriodDate st = Some "" -> trim (userInput st) <> "" ->
  exec (sendMessage w) st = after_send w st [] setup_request.
Proof.
  intros H Hm. unfold exec. rewrite (sendMessage_nonempty w st Hm). cbn [snd].
  rewrite sendMessage_try_empty_date by now rewrite (proj1 (started_setup w st)).
  destruct st. page_simpl. now rewrite <- app_assoc, app_nil_r.
Qed.

(** [sendMessage], whole: the page it leaves is the one [outcome]
    describes. *)
Lemma sendMessage_outcome w st :
  exec (sendMessage w) st =
    match outcome w st with
    | None => st
    | Some (reqs, text) => after_send w st reqs text
    end.
Proof.
  unfold outcome.
  destruct (String.eqb_spec (trim (userInput st)) "") as [E|N].
  - unfold exec. now rewrite (sendMessage_empty w st E).
  - destruct (userLastPeriodDate st) as [d|] eqn:H.
    + destruct (String.eqb_spec d "") as [->|Hd].
      * apply (sendMessage_empty_date w st H N).
      * rewrite (sendMessage_setup w st d H Hd N). now destruct (turn _ _ _ _).
    + apply (sendMessage_no_setup w st H N).
Qed.

Lemma trim_empty : trim "" = "".
Proof. reflexivity. Qed.

Lemma userInput_after_send w st reqs text : userInput (after_send w st reqs text) = "".
Proof. now destruct st. Qed.

Lemma turn_requests w m d n : one_send_requests w (fst (turn w m d n)).
Proof.
  unfold turn, one_send_requests.
  destruct (cycle_phase_of _) as [cycleInfo|e]; [|cbn; eauto].
  destruct (cycleInfoText cycleInfo) as [text|e]; [|cbn; eauto].
  cbv zeta. destruct (reply_of _); cbn; right; right; eauto.
Qed.

(** X1. A send whose input is empty or white space only returns at line 71
    and leaves the whole page as it was: nothing is shown, nothing is
    fetched, the input keeps its white space. *)
Theorem blank_input_ignored (w : world) (st : state) :
  trim (userInput st) = "" -> exec (sendMessage w) st = st.
Proof. intros H. unfold exec. now rewrite (sendMessage_empty w st H). Qed.

Lemma blank_input_ignored_witness :
  exec (sendMessage calm_world) blank_page = blank_page /\ userInput blank_page = "   ".
Proof.
  split; [|reflexivity].
  apply (blank_input_ignored calm_world blank_page). reflexivity.
Defined.

(** X2. A send empties the input it has taken (line 76), so sending again
    without typing does nothing, whatever the services would answer: two
    clicks send one message. *)
Theorem second_send_does_nothing (w1 w2 : world) (st : state) :
  exec (sendMessage w2) (exec (sendMessage w1) st) = exec (sendMessage w1) st.
Proof.
  assert (E : trim (userInput (exec (sendMessage w1) st)) = "" ->
              exec (sendMessage w2) (exec (sendMessage w1) st) = exec (sendMessage w1) st).
  { intros E. unfold exec at 1. now rewrite (sendMessage_empty w2 _ E). }
  apply E. rewrite (sendMessage_outcome w1 st). unfold outcome.
  destruct (String.eqb_spec (trim (userInput st)) "") as [B|N]; [exact B|].
  destruct (userLastPeriodDate st) as [d|]; [destruct (String.eqb d "")|];
    try destruct (turn _ _ _ _); now rewrite userInput_after_send.
Qed.

(** X3. A send never writes to what the setup owns: the two variables,
    durable storage, the setup screen and its two inputs, and the alerts
    are after it what they were before. *)
Theorem send_keeps_setup (w : world) (st : state) :
  userLastPeriodDate (exec (sendMessage w) st) = userLastPeriodDate st /\
  userCycleLength (exec (sendMessage w) st) = userCycleLength st /\
  localStorage (exec (sendMessage w) st) = localStorage st /\
  setupScreen (exec (sendMessage w) st) = setupScreen st /\
  setupLastPeriodInput (exec (sendMessage w) st) = setupLastPeriodInput st /\
  setupCycleLengthInput (exec (sendMessage w) st) = setupCycleLengthInput st /\
  alerts (exec (sendMessage w) st) = alerts st.
Proof.
  rewrite (sendMessage_outcome w st).
  destruct (outcome w st) as [[reqs text]|]; now destruct st.
Qed.

(** X4. One send only adds to the record of requests, and what it adds is
    nothing, or the calculation request alone, or the calculation request
    followed by one completion request: the completion service is never
    called first, nor twice. *)
Theorem send_requests_shape (w : world) (st : state) :
  exists reqs,
    requests (exec (sendMessage w) st) = (requests st ++ reqs)%list /\
    one_send_requests w reqs.
Proof.
  rewrite (sendMessage_outcome w st). unfold outcome.
  destruct (String.eqb (trim (userInput st)) "").
  - exists []. split; [now rewrite app_nil_r|now left].
  - destruct (userLastPeriodDate st) as [d|]; [destruct (String.eqb d "")|].
    + exists []. split; [apply requests_after_send|now left].
    + pose proof (turn_requests w (trim (userInput st)) d (userCycleLength st)) as T.
      destruct (turn _ _ _ _) as [reqs text]. exists reqs.
      split; [apply requests_after_send|exact T].
    + exists []. split; [apply requests_after_send|now left].
Qed.

(** ** The setup, then a send *)

Lemma turn_first w m d n :
  exists rest, fst (turn w m d n) = calculate_cycle_request w d n :: rest.
Proof.
  unfold turn. destruct (cycle_phase_of _) as [cycleInfo|e]; [|cbn; eauto].
  destruct (cycleInfoText cycleInfo) as [text|e]; [|cbn; eauto].
  cbv zeta. destruct (reply_of _); cbn; eauto.
Qed.

(** X5. What a completed setup has stored is what the next send asks the
    calculation service with: the date as typed, and [Number] of the
    cycle-length field (28 for an empty one). *)
Theorem setup_then_send (w : world) (st : state) :
  setupLastPeriodInput st <> "" ->
  trim (userInput st) <> "" ->
  exists rest,
    requests (exec (sendMessage w) (exec completeSetup st)) =
      (requests st ++
         calculate_cycle_request w (setupLastPeriodInput st)
           (Number (cycleLength_of (setupCycleLengthInput st))) :: rest)%list.
Proof.
  intros Hd Hm. rewrite (completeSetup_done st Hd).
  set (n := Number (cycleLength_of (setupCycleLengthInput st))).
  set (st1 := with_setupScreen _ _).
  assert (H1 : userLastPeriodDate st1 = Some (setupLastPeriodInput st)) by now destruct st.
  assert (H2 : userCycleLength st1 = n) by now destruct st.
  assert (H3 : userInput st1 = userInput st) by now destruct st.
  assert (H4 : requests st1 = requests st) by now destruct st.
  rewrite (sendMessage_setup w st1 _ H1 Hd) by now rewrite H3.
  rewrite requests_after_send, H2, H3, H4.
  destruct (turn_first w (trim (userInput st)) (setupLastPeriodInput st) n) as [rest ->].
  now exists rest.
Qed.

Lemma setup_then_send_witness :
  exists rest,
    requests (exec (sendMessage calm_world) (exec completeSetup filled_page)) =
      calculate_cycle_request calm_world "2025-02-10" (Finite 3 1) :: rest.
Proof.
  apply (setup_then_send calm_world filled_page); [discriminate|].
  vm_compute. discriminate.
Defined.

(** ** Exceptions of the two calls *)

Section Exceptions.

Context (w : world) (st : state) (d : string).
Hypothesis setup : userLastPeriodDate st = Some d.
Hypothesis dated : d <> "".
Hypothesis typed : trim (userInput st) <> "".

Let calculation : request := calculate_cycle_request w d (userCycleLength st).

Lemma send_completion cycleInfo text :
  cycle_phase_of (fetch w calculation) = Normal cycleInfo ->
  cycleInfoText cycleInfo = Normal text ->
  exec (sendMessage w) st =
    after_send w st
      [calculation; chat_request (prompt text (trim (userInput st)))]
      match reply_of (fetch w (chat_request (prompt text (trim (userInput st))))) with
      | Normal reply => reply
      | Throw e => "Error: " ++ message e
      end.
Proof.
  intros Hc Ht. rewrite (sendMessage_setup w st d setup dated typed).
  unfold turn. fold calculation. rewrite Hc, Ht. cbv zeta.
  now destruct (reply_of _).
Qed.

(** X6. When the call of the calculation service ends in an exception (the
    [fetch] is rejected, or the body of an OK response cannot be parsed),
    the send stops there: the assistant message is the prefix followed by
    the message of the exception, and the completion service is not
    called. *)
Theorem calculation_exception_shown (e : exn) :
  calculation_exception (fetch w calculation) e ->
  appended w st ("Error: " ++ message e) /\
  requests (exec (sendMessage w) st) = (requests st ++ [calculation])%list.
Proof.
  intros He.
  assert (T : cycle_phase_of (fetch w calculation) = Throw e).
  { destruct He as [->|(r & -> & Hok & Hj)]; [reflexivity|].
    unfold cycle_phase_of. now rewrite Hok, Hj. }
  unfold appended. rewrite (send_calculation_throws w st d setup dated typed e T).
  split; [apply chatContainer_after_send|apply requests_after_send].
Qed.

(** X7. When the cycle phase is there and the call of the completion
    service ends in an exception (the [fetch] is rejected, or the body
    cannot be parsed, whatever the status), the assistant message is the
    prefix followed by the message of the exception, after both
    requests. *)
Theorem completion_exception_shown (cycleInfo : value) (text : string) (e : exn) :
  cycle_phase_of (fetch w calculation) = Normal cycleInfo ->
  cycleInfoText cycleInfo = Normal text ->
  completion_exception (fetch w (chat_request (prompt text (trim (userInput st))))) e ->
  appended w st ("Error: " ++ message e) /\
  requests (exec (sendMessage w) st) =
    (requests st ++
       [calculation; chat_request (prompt text (trim (userInput st)))])%list.
Proof.
  intros Hc Ht He.
  assert (T : reply_of (fetch w (chat_request (prompt text (trim (userInput st)))))
              = Throw e).
  { destruct He as [->|(r & -> & Hj)]; [reflexivity|].
    unfold reply_of. now rewrite Hj. }
  unfold appended. rewrite (send_completion cycleInfo text Hc Ht), T.
  split; [apply chatContainer_after_send|apply requests_after_send].
Qed.

(** X9. When the body of the completion service is the JSON value [null],
    the read [data.choices] of line 125 throws: the assistant message is
    an error message, not the fallback text. *)
Theorem null_completion_body_is_error (cycleInfo : value) (text : string) (r : response) :
  cycle_phase_of (fetch w calculation) = Normal cycleInfo ->
  cycleInfoText cycleInfo = Normal text ->
  fetch w (chat_request (prompt text (trim (userInput st)))) = Resolved r ->
  json r = inr VNull ->
  exists reason, appended w st ("Error: " ++ reason).
Proof.
  intros Hc Ht Hf Hj. eexists. unfold appended.
  rewrite (send_reply w st d setup dated typed cycleInfo text r VNull Hc Ht Hf Hj).
  cbn. apply chatContainer_after_send.
Qed.

(** X10. When the content of the first choice is there and truthy but is
    not a string (a number, [true], an array, an object), it has no
    [replace] to call at line 128: the assistant message is an error
    message, and the content is not shown. *)
Theorem non_string_content_is_error (cycleInfo : value) (text : string)
    (r : response) (data content : value) :
  cycle_phase_of (fetch w calculation) = Normal cycleInfo ->
  cycleInfoText cycleInfo = Normal text ->
  fetch w (chat_request (prompt text (trim (userInput st)))) = Resolved r ->
  json r = inr data ->
  content_of data = Normal content ->
  truthy content = true ->
  (forall s, content <> VString s) ->
  exists reason, appended w st ("Error: " ++ reason).
Proof.
  intros Hc Ht Hf Hj Hk Htrue Hns.
  assert (T : exists e, markdownText data = Throw e).
  { unfold markdownText. rewrite Hk. cbn. rewrite Htrue.
    destruct content; cbn; eauto; try discriminate.
    now destruct (Hns s). }
  destruct T as [e T]. exists (message e). unfold appended.
  rewrite (send_reply w st d setup dated typed cycleInfo text r data Hc Ht Hf Hj), T.
  apply chatContainer_after_send.
Qed.

End Exceptions.

Lemma calculation_exception_shown_witness :
  appended down_world crampy_page "Error: Failed to fetch" /\
  appended unreadable_calculation_world crampy_page "Error: Unexpected token < in JSON".
Proof.
  destruct crampy_page_ready as (R1 & R2 & R3). split.
  - apply (calculation_exception_shown down_world crampy_page "2025-01-01" R1 R2 R3
             (TypeError "Failed to fetch")).
    left. reflexivity.
  - apply (calculation_exception_shown unreadable_calculation_world crampy_page
             "2025-01-01" R1 R2 R3 syntax_error).
    right. eexists. split; [reflexivity|]. split; reflexivity.
Defined.

Lemma completion_exception_shown_witness :
  appended unreadable_completion_world crampy_page "Error: Unexpected token < in JSON".
Proof.
  destruct crampy_page_ready as (R1 & R2 & R3).
  apply (completion_exception_shown unreadable_completion_world crampy_page
           "2025-01-01" R1 R2 R3 menstrual_day_5 crampy_info syntax_error);
    try reflexivity.
  right. eexists. split; reflexivity.
Defined.

Lemma null_completion_body_is_error_witness :
  exists reason, appended null_completion_world crampy_page ("Error: " ++ reason).
Proof.
  destruct crampy_page_ready as (R1 & R2 & R3).
  apply (null_completion_body_is_error null_completion_world crampy_page
           "2025-01-01" R1 R2 R3 menstrual_day_5 crampy_info
           {| status := 200; json := inr VNull |}); reflexivity.
Defined.

Lemma non_string_content_is_error_witness :
  exists reason, appended numeric_content_world crampy_page ("Error: " ++ reason).
Proof.
  destruct crampy_page_ready as (R1 & R2 & R3).
  apply (non_string_content_is_error numeric_content_world crampy_page
           "2025-01-01" R1 R2 R3 menstrual_day_5 crampy_info
           {| status := 200; json := inr (completion_with (VNumber (Finite 42 0))) |}
           (completion_with (VNumber (Finite 42 0))) (VNumber (Finite 42 0)));
    try reflexivity.
  intros s. discriminate.
Defined.

(** ** The status of the completion service *)

Lemma after_send_same_marked w1 w2 st reqs text :
  marked w1 = marked w2 -> after_send w1 st reqs text = after_send w2 st reqs text.
Proof. intros H. unfold after_send, new_message. now rewrite H. Qed.

Lemma url_calculation_not_completion w d n :
  String.eqb (url (calculate_cycle_request w d n)) chat_completions_url = false.
Proof. reflexivity. Qed.

Lemma url_chat_request content :
  String.eqb (url (chat_request content)) chat_completions_url = true.
Proof. reflexivity. Qed.

Lemma turn_same_but_status w1 w2 m d n :
  same_but_completion_status w1 w2 -> turn w1 m d n = turn w2 m d n.
Proof.
  intros (Hnow & _ & Hfetch). unfold turn.
  assert (Hreq : calculate_cycle_request w1 d n = calculate_cycle_request w2 d n)
    by (unfold calculate_cycle_request; now rewrite Hnow).
  rewrite Hreq.
  pose proof (Hfetch (calculate_cycle_request w2 d n)) as Hc.
  rewrite url_calculation_not_completion in Hc. rewrite Hc.
  destruct (cycle_phase_of _) as [cycleInfo|e]; [|reflexivity].
  destruct (cycleInfoText cycleInfo) as [text|e]; [|reflexivity].
  cbv zeta.
  pose proof (Hfetch (chat_request (prompt text m))) as Hk.
  rewrite url_chat_request in Hk.
  destruct (fetch w1 (chat_request (prompt text m))) as [e1|r1],
           (fetch w2 (chat_request (prompt text m))) as [e2|r2];
    try contradiction.
  - now rewrite Hk.
  - unfold reply_of. now rewrite Hk.
Qed.

(** X8. The status of the response of the completion service is never
    read: in two worlds that differ in nothing else, a send leaves the
    same page, so a 500 with a readable body is shown like a 200. *)
Theorem completion_status_ignored (w1 w2 : world) (st : state) :
  same_but_completion_status w1 w2 ->
  exec (sendMessage w1) st = exec (sendMessage w2) st.
Proof.
  intros H. rewrite !sendMessage_outcome.
  assert (E : outcome w1 st = outcome w2 st).
  { unfold outcome. destruct (String.eqb _ ""); [reflexivity|].
    destruct (userLastPeriodDate st) as [d|]; [|reflexivity].
    destruct (String.eqb d ""); [reflexivity|].
    now rewrite (turn_same_but_status w1 w2 _ _ _ H). }
  rewrite E. destruct (outcome w2 st) as [[reqs text]|]; [|reflexivity].
  apply after_send_same_marked. apply H.
Qed.

Lemma completion_status_ignored_witness :
  exec (sendMessage (world_with_status 200)) crampy_page =
  exec (sendMessage (world_with_status 500)) crampy_page.
Proof.
  apply (completion_status_ignored (world_with_status 200) (world_with_status 500)
           crampy_page).
  split; [reflexivity|]. split; [reflexivity|].
  intros req. cbn.
  destruct (String.eqb_spec (url req) chat_completions_url) as [E|N].
  - rewrite E. reflexivity.
  - now destruct (String.eqb (url req) calculate_cycle_url).
Defined.

(** ** The text of the reply *)

(** X11. Whenever lines 124 to 128 give a reply, no two tildes stand side
    by side in it, whether it comes from the content or is the
    fallback. *)
Theorem reply_has_no_double_tilde (data : value) (reply : string) :
  markdownText data = Normal reply -> double_tilde reply = false.
Proof.
  unfold markdownText. destruct (content_of data) as [content|e]; [|discriminate].
  cbn. destruct (if truthy content then content else VString fallback);
    cbn; try discriminate.
  intros [= <-]. apply remove_tildes_none_left.
Qed.

Lemma reply_has_no_double_tilde_witness :
  markdownText (completion_with (VString "~~~a ~~~~b~~")) = Normal "~a b" /\
  double_tilde "~a b" = false.
Proof.
  split; [reflexivity|].
  apply (reply_has_no_double_tilde (completion_with (VString "~~~a ~~~~b~~")) "~a b").
  reflexivity.
Defined.

(** ** The entries of the chat *)

Lemma built_new_message w text s : built_by_addMessage (new_message w text s).
Proof.
  unfold built_by_addMessage, new_message. cbn. split; [reflexivity|].
  destruct s; [left|right]; [|reflexivity].
  split; [reflexivity|]. now exists text.
Qed.

Lemma added_step ev st :
  exists added,
    chatContainer (step ev st) = (chatContainer st ++ added)%list /\
    Forall built_by_addMessage added.
Proof.
  destruct ev as [t|t|t| |w];
    try (exists []; rewrite chatContainer_step_other, app_nil_r by discriminate;
         split; [reflexivity|constructor]).
  cbn [step]. rewrite (sendMessage_outcome w st).
  destruct (outcome w st) as [[reqs text]|].
  - eexists. split; [apply chatContainer_after_send|].
    constructor; [apply built_new_message|].
    constructor; [apply built_new_message|constructor].
  - exists []. rewrite app_nil_r. split; [reflexivity|constructor].
Qed.

(** X12. Whatever happens on the page, the chat only grows, and every
    entry added is one [addMessage] built: it has the bubble class, and
    either the class of the user, with its text set through [textContent]
    and never through [innerHTML], or the class of the assistant. *)
Theorem chat_entries_built_by_addMessage (evs : list event) (st : state) :
  exists added,
    chatContainer (run evs st) = (chatContainer st ++ added)%list /\
    Forall built_by_addMessage added.
Proof.
  revert st. induction evs as [|ev evs IH]; intros st.
  - exists []. cbn. rewrite app_nil_r. split; [reflexivity|constructor].
  - cbn [run]. destruct (IH (step ev st)) as (l2 & E2 & F2).
    destruct (added_step ev st) as (l1 & E1 & F1).
    exists (l1 ++ l2)%list. rewrite E2, E1, app_assoc.
    split; [reflexivity|]. apply Forall_app. now split.
Qed.

(** ** More on the setup handler *)

(** X13. Confirming a filled setup form a second time changes nothing:
    the page after two clicks is the page after one. *)
Theorem completeSetup_twice (st : state) :
  setupLastPeriodInput st <> "" ->
  exec completeSetup (exec completeSetup st) = exec completeSetup st.
Proof.
  intros H. rewrite (completeSetup_done st H).
  set (st1 := with_setupScreen _ _).
  assert (H1 : setupLastPeriodInput st1 = setupLastPeriodInput st) by now destruct st.
  rewrite (completeSetup_done st1) by now rewrite H1.
  subst st1. destruct st as [d n lp cl ss ui ld cc ls al rq]. cbn. f_equal.
  rewrite (insert_insert_ne _ "lastPeriodDate" "cycleLength") by discriminate.
  now rewrite !insert_insert_eq.
Qed.

Lemma completeSetup_twice_witness :
  exec completeSetup (exec completeSetup filled_page) = exec completeSetup filled_page.
Proof. apply (completeSetup_twice filled_page). discriminate. Defined.

(** X14. The setup handler touches neither the chat nor the message flow:
    the chat log, the record of requests, the message input, the loading
    indicator and the two fields of the form are left alone, and of
    durable storage only the two keys of the setup can change. *)
Theorem completeSetup_frame (st : state) :
  chatContainer (exec completeSetup st) = chatContainer st /\
  requests (exec completeSetup st) = requests st /\
  userInput (exec completeSetup st) = userInput st /\
  loading (exec completeSetup st) = loading st /\
  setupLastPeriodInput (exec completeSetup st) = setupLastPeriodInput st /\
  setupCycleLengthInput (exec completeSetup st) = setupCycleLengthInput st /\
  (forall k, k <> "lastPeriodDate" -> k <> "cycleLength" ->
     localStorage (exec completeSetup st) !! k = localStorage st !! k).
Proof.
  destruct (String.eqb_spec (setupLastPeriodInput st) "") as [E|N].
  - rewrite (completeSetup_empty st E). now destruct st.
  - rewrite (completeSetup_done st N). destruct st; cbn. repeat (split; [reflexivity|]).
    intros k K1 K2. now rewrite !lookup_insert_ne by congruence.
Qed.

(** X15. A cycle-length field that holds white space only is not taken as
    empty: [||] keeps the string, [Number] makes it 0, and the setup
    stores 0 and not the default 28. *)
Theorem blank_cycle_length_is_zero (st : state) :
  setupLastPeriodInput st <> "" ->
  setupCycleLengthInput st <> "" ->
  trim (setupCycleLengthInput st) = "" ->
  userCycleLength (exec completeSetup st) = Finite 0 0 /\
  localStorage (exec completeSetup st) !! "cycleLength" = Some "0".
Proof.
  intros H Hf Ht. rewrite (completeSetup_done st H).
  assert (E : Number (cycleLength_of (setupCycleLengthInput st)) = Finite 0 0).
  { unfold cycleLength_of.
    destruct (String.eqb_spec (setupCycleLengthInput st) "") as [E|_]; [easy|].
    unfold Number, StringToNumber. now rewrite Ht. }
  rewrite E. destruct st; cbn. split; [reflexivity|apply lookup_insert_eq].
Qed.

Lemma blank_cycle_length_is_zero_witness :
  userCycleLength (exec completeSetup spaces_form) = Finite 0 0 /\
  localStorage (exec completeSetup spaces_form) !! "cycleLength" = Some "0".
Proof.
  apply (blank_cycle_length_is_zero spaces_form); [discriminate|discriminate|reflexivity].
Defined.

(** ** More on the calculation service *)

(** X21. When the calculation service answers OK with a body whose
    [success] is truthy, [calculateCyclePhase] returns that body as it is,
    and all it has done to the page is the one request. *)
Theorem calculateCyclePhase_returns_body (w : world) (d : string) (n : number)
    (st : state) (r : response) (data success : value) :
  fetch w (calculate_cycle_request w d n) = Resolved r ->
  ok r = true ->
  json r = inr data ->
  get data (Field "success") = Normal success ->
  truthy success = true ->
  calculateCyclePhase w d n st =
    (Normal data, with_requests (requests st ++ [calculate_cycle_request w d n]) st).
Proof.
  intros Hf Hok Hj Hs Ht. rewrite calculateCyclePhase_eq. f_equal.
  unfold cycle_phase_of, check_success. rewrite Hf, Hok, Hj, Hs. cbn. now rewrite Ht.
Qed.

Lemma calculateCyclePhase_returns_body_witness :
  fst (calculateCyclePhase calm_world "2025-01-01" (Finite 28 0) crampy_page) =
    Normal menstrual_day_5.
Proof.
  rewrite (calculateCyclePhase_returns_body calm_world "2025-01-01" (Finite 28 0)
             crampy_page {| status := 200; json := inr menstrual_day_5 |}
             menstrual_day_5 (VBool true)); reflexivity.
Defined.

Section Answers.

Context (w : world) (st : state) (d : string).
Hypothesis setup : userLastPeriodDate st = Some d.
Hypothesis dated : d <> "".
Hypothesis typed : trim (userInput st) <> "".

Let calculation : request := calculate_cycle_request w d (userCycleLength st).

(** X18. An OK answer of the calculation service whose [success] is
    missing, or falsy in any other way, is a failure like [false]: the
    assistant message is the prefix and the text of the error member, or
    the default text when that member is missing or falsy too. No
    completion request is made. *)
Theorem falsy_success_is_failure (r : response) (data success error : value) :
  fetch w calculation = Resolved r ->
  ok r = true ->
  json r = inr data ->
  get data (Field "success") = Normal success ->
  truthy success = false ->
  get data (Field "error") = Normal error ->
  appended w st ("Error: " ++ error_text error) /\
  requests (exec (sendMessage w) st) = (requests st ++ [calculation])%list.
Proof.
  intros Hf Hok Hj Hs Ht He.
  destruct (check_success_falsy data success error Hs Ht He) as (e & Hc & Hmsg).
  assert (T : cycle_phase_of (fetch w calculation) = Throw e)
    by (unfold cycle_phase_of; now rewrite Hf, Hok, Hj).
  unfold appended. rewrite (send_calculation_throws w st d setup dated typed e T), Hmsg.
  split; [apply chatContainer_after_send|apply requests_after_send].
Qed.

(** X19. The members [cycle_day] and [phase] of a successful answer are
    not checked: when both are missing, the completion service is still
    called, with a prompt that says [undefined] for each. *)
Theorem missing_cycle_fields_sent (cycleInfo : value) :
  cycle_phase_of (fetch w calculation) = Normal cycleInfo ->
  get cycleInfo (Field "cycle_day") = Normal VUndefined ->
  get cycleInfo (Field "phase") = Normal VUndefined ->
  requests (exec (sendMessage w) st) =
    (requests st ++
       [calculation;
        chat_request
          (prompt "The user is currently on cycle day undefined, in the undefined."
                  (trim (userInput st)))])%list.
Proof.
  intros Hc Hday Hph.
  assert (T : cycleInfoText cycleInfo =
              Normal "The user is currently on cycle day undefined, in the undefined.")
    by (unfold cycleInfoText; rewrite Hday; cbn; rewrite Hph; reflexivity).
  rewrite (sendMessage_setup w st d setup dated typed). unfold turn. fold calculation.
  rewrite Hc, T. cbv zeta. rewrite requests_after_send.
  now destruct (reply_of _).
Qed.

End Answers.

Lemma falsy_success_is_failure_witness :
  appended (failing_world 200 (VObject [("cycle_day", VNumber (Finite 5 0))]))
    crampy_page "Error: Unknown error occurred".
Proof.
  destruct crampy_page_ready as (R1 & R2 & R3).
  apply (falsy_success_is_failure
           (failing_world 200 (VObject [("cycle_day", VNumber (Finite 5 0))]))
           crampy_page "2025-01-01" R1 R2 R3
           {| status := 200; json := inr (VObject [("cycle_day", VNumber (Finite 5 0))]) |}
           (VObject [("cycle_day", VNumber (Finite 5 0))]) VUndefined VUndefined);
    reflexivity.
Defined.

Lemma missing_cycle_fields_sent_witness :
  requests (exec (sendMessage bare_success_world) crampy_page) =
    [ calculate_cycle_request bare_success_world "2025-01-01" (Finite 28 0);
      chat_request
        (prompt "The user is currently on cycle day undefined, in the undefined."
                "I feel crampy today") ].
Proof.
  destruct crampy_page_ready as (R1 & R2 & R3).
  apply (missing_cycle_fields_sent bare_success_world crampy_page "2025-01-01" R1 R2 R3
           (VObject [("success", VBool true)])); reflexivity.
Defined.

(** ** More invariants of a run *)

Lemma requests_completeSetup st :
  requests (exec completeSetup st) = requests st.
Proof.
  destruct (String.eqb_spec (setupLastPeriodInput st) "") as [E|N].
  - rewrite (completeSetup_empty st E). now destruct st.
  - rewrite (completeSetup_done st N). now destruct st.
Qed.

Lemma date_was_None ev st :
  userLastPeriodDate (step ev st) = None -> userLastPeriodDate st = None.
Proof.
  destruct ev as [t|t|t| |w]; try (now destruct st).
  - cbn [step]. destruct (String.eqb_spec (setupLastPeriodInput st) "") as [E|N].
    + rewrite (completeSetup_empty st E). now destruct st.
    + rewrite (completeSetup_done st N). now destruct st.
  - cbn [step]. rewrite (sendMessage_outcome w st).
    destruct (outcome w st) as [[reqs text]|]; now destruct st.
Qed.

Lemma no_request_step ev st :
  (userLastPeriodDate st = None -> requests st = []) ->
  userLastPeriodDate (step ev st) = None -> requests (step ev st) = [].
Proof.
  intros K H. pose proof (K (date_was_None ev st H)) as R.
  pose proof (date_was_None ev st H) as D.
  destruct ev as [t|t|t| |w]; try (now destruct st).
  - cbn [step].
    rewrite requests_completeSetup. exact R.
  - cbn [step]. rewrite (sendMessage_outcome w st). unfold outcome. rewrite D.
    destruct (String.eqb _ ""); [exact R|].
    rewrite requests_after_send, R. reflexivity.
Qed.

(** X17. As long as no setup has been completed, no request leaves the
    page, however many messages are sent: a run that ends with
    [userLastPeriodDate] still [null] has called [fetch] for neither
    service. *)
Theorem no_request_before_setup (evs : list event) (storage : gmap string string) :
  userLastPeriodDate (run evs (initial storage)) = None ->
  requests (run evs (initial storage)) = [].
Proof.
  assert (G : forall st, (userLastPeriodDate st = None -> requests st = []) ->
                         userLastPeriodDate (run evs st) = None ->
                         requests (run evs st) = []).
  { induction evs as [|ev evs IH]; intros st K; [exact K|].
    cbn [run]. apply IH, no_request_step, K. }
  apply G. reflexivity.
Qed.

Lemma no_request_before_setup_witness :
  requests (run [ Type_userInput "hello"; Send calm_world; Click_completeSetup;
                  Type_userInput "anyone?"; Send calm_world ] (initial ∅)) = [].
Proof.
  apply (no_request_before_setup
           [ Type_userInput "hello"; Send calm_world; Click_completeSetup;
             Type_userInput "anyone?"; Send calm_world ] ∅).
  reflexivity.
Defined.

(** *** Durable storage *)

Lemma outcome_storage w m st : outcome w (with_localStorage m st) = outcome w st.
Proof. now destruct st. Qed.

Lemma step_forget ev m st :
  forget_storage (step ev (with_localStorage m st)) = forget_storage (step ev st).
Proof.
  destruct ev as [t|t|t| |w]; try (now destruct st).
  - cbn [step].
    assert (I : setupLastPeriodInput (with_localStorage m st) = setupLastPeriodInput st)
      by now destruct st.
    destruct (String.eqb_spec (setupLastPeriodInput st) "") as [E|N].
    + rewrite (completeSetup_empty st E), (completeSetup_empty _ (eq_trans I E)).
      now destruct st.
    + rewrite (completeSetup_done st N), (completeSetup_done (with_localStorage m st))
        by now rewrite I.
      now destruct st.
  - cbn [step]. rewrite !sendMessage_outcome, outcome_storage.
    destruct (outcome w st) as [[reqs text]|]; now destruct st.
Qed.

Lemma forget_storage_eq st1 st2 :
  forget_storage st1 = forget_storage st2 ->
  st1 = with_localStorage (localStorage st1) st2.
Proof. destruct st1, st2. cbn. intros [= -> -> -> -> -> -> -> -> -> ->]. reflexivity. Qed.

(** X20. The script writes durable storage and never reads it: runs of
    the same events from two pages that differ in what storage holds end
    in pages that differ in storage only. What an earlier visit persisted
    has no effect on this one. *)
Theorem storage_never_read (evs : list event) (st1 st2 : state) :
  forget_storage st1 = forget_storage st2 ->
  forget_storage (run evs st1) = forget_storage (run evs st2).
Proof.
  revert st1 st2. induction evs as [|ev evs IH]; intros st1 st2 H; [exact H|].
  cbn [run]. apply IH. rewrite (forget_storage_eq st1 st2 H). apply step_forget.
Qed.

Lemma storage_never_read_witness :
  forget_storage (run example_run (initial {["lastPeriodDate" := "2024-12-01"]})) =
  forget_storage (run example_run (initial ∅)) /\
  userLastPeriodDate (run [Type_userInput "hello"; Send calm_world]
                        (initial {["lastPeriodDate" := "2024-12-01"]})) = None.
Proof.
  split; [|reflexivity].
  apply (storage_never_read example_run
           (initial {["lastPeriodDate" := "2024-12-01"]}) (initial ∅)).
  reflexivity.
Defined.

(** X16. A page at rest stays at rest through every handler: the script
    never leaves the loading indicator set to [block] once a handler has
    returned, and never stores the empty string as the date of the
    setup, so the guard of line 82 lets a send through only with a date
    the user typed. *)
Theorem at_rest_kept (evs : list event) (st : state) :
  at_rest st -> at_rest (run evs st).
Proof.
  revert st. induction evs as [|ev evs IH]; intros st H; [exact H|].
  cbn [run]. apply IH, at_rest_step, H.
Qed.

Lemma at_rest_kept_witness :
  loading (run example_run (initial ∅)) = "none" /\
  at_rest (run example_run (initial ∅)).
Proof.
  split; [reflexivity|].
  apply (at_rest_kept example_run (initial ∅)).
  split; [discriminate|now left].
Defined.

(** ** The reply, in general *)

Section Reply.

Context (w : world) (st : state) (d : string).
Hypothesis setup : userLastPeriodDate st = Some d.
Hypothesis dated : d <> "".
Hypothesis typed : trim (userInput st) <> "".

Let calculation : request := calculate_cycle_request w d (userCycleLength st).

(** X22. The whole of a successful send: with the cycle phase calculated
    and a completion whose content is a non-empty string, the send makes
    the two requests in order, the prompt of the second holds the sentence
    on the cycle and the trimmed message, and the assistant message is
    the content without its double tildes. *)
Theorem content_is_shown (cycleInfo : value) (text : string) (r : response)
    (data : value) (content : string) :
  cycle_phase_of (fetch w calculation) = Normal cycleInfo ->
  cycleInfoText cycleInfo = Normal text ->
  fetch w (chat_request (prompt text (trim (userInput st)))) = Resolved r ->
  json r = inr data ->
  content_of data = Normal (VString content) ->
  content <> "" ->
  requests (exec (sendMessage w) st) =
    (requests st ++
       [calculation; chat_request (prompt text (trim (userInput st)))])%list /\
  contains (prompt text (trim (userInput st))) text /\
  contains (prompt text (trim (userInput st))) (trim (userInput st)) /\
  appended w st (remove_tildes content).
Proof.
  intros Hc Ht Hf Hj Hk Hne. unfold appended.
  rewrite (send_reply w st d setup dated typed cycleInfo text r data Hc Ht Hf Hj).
  rewrite (markdownText_string data content Hk Hne).
  split; [apply requests_after_send|].
  split; [apply prompt_contains_info, contains_refl|].
  split; [apply prompt_contains_message|apply chatContainer_after_send].
Qed.

(** X23. With the Markdown library loaded, the text of a failure of the
    calculation service goes through [marked.parse] into [innerHTML] like
    any reply: the error member the service sent is rendered as Markdown,
    not shown as plain text. *)
Theorem error_member_rendered (parse : string -> string) (r : response)
    (data : value) (s : string) :
  marked w = Some parse ->
  fetch w calculation = Resolved r ->
  ok r = true ->
  json r = inr data ->
  get data (Field "success") = Normal (VBool false) ->
  get data (Field "error") = Normal (VString s) ->
  s <> "" ->
  last (chatContainer (exec (sendMessage w) st)) =
    Some {| className := "message assistant";
            bubble_className := "message-bubble";
            bubble := innerHTML (parse ("Error: " ++ s)) |}.
Proof.
  intros Hm Hf Hok Hj Hs He Hne.
  destruct (check_success_falsy data (VBool false) (VString s) Hs eq_refl He)
    as (e & Hc & Hmsg).
  assert (T : cycle_phase_of (fetch w calculation) = Throw e)
    by (unfold cycle_phase_of; now rewrite Hf, Hok, Hj).
  assert (Et : error_text (VString s) = s).
  { unfold error_text. cbn. now destruct (String.eqb_spec s "") as [E|_]. }
  rewrite (send_calculation_throws w st d setup dated typed e T), Hmsg, Et.
  rewrite chatContainer_after_send.
  rewrite last_app_cons, last_cons_cons. unfold new_message. now rewrite Hm.
Qed.

End Reply.

Lemma content_is_shown_witness :
  appended calm_world crampy_page "Cramps are common on day 5. Rest and warmth help.".
Proof.
  destruct crampy_page_ready as (R1 & R2 & R3).
  refine (proj2 (proj2 (proj2
    (content_is_shown calm_world crampy_page "2025-01-01" R1 R2 R3
       menstrual_day_5 crampy_info
       {| status := 200;
          json := inr (completion_with
                         (VString "Cramps are common on day 5. ~~Rest~~ and warmth help.")) |}
       _ "Cramps are common on day 5. ~~Rest~~ and warmth help."
       eq_refl eq_refl eq_refl eq_refl eq_refl _)))).
  discriminate.
Defined.

Lemma error_member_rendered_witness :
  last (chatContainer (exec (sendMessage rendering_world) crampy_page)) =
    Some {| className := "message assistant";
            bubble_className := "message-bubble";
            bubble := innerHTML "<p>Error: **bad** date</p>" |}.
Proof.
  destruct crampy_page_ready as (R1 & R2 & R3).
  apply (error_member_rendered rendering_world crampy_page "2025-01-01" R1 R2 R3
           paragraph
           {| status := 200;
              json := inr (VObject [("success", VBool false);
                                    ("error", VString "**bad** date")]) |}
           (VObject [("success", VBool false); ("error", VString "**bad** date")])
           "**bad** date"); try reflexivity.
  discriminate.
Defined.

(** * Sends in flight *)

(** ** Interleavings *)

Lemma shuffle_new {A : Type} (strands : list (list A)) (l s : list A) :
  shuffle strands l -> shuffle (strands ++ [s]) (l ++ s).
Proof.
  induction 1 as [strands H|strands i x s0 l Hi _ IH].
  - cbn. induction s as [|x s IHs].
    + apply shuffle_done. apply Forall_app. split; [exact H|now constructor].
    + apply (shuffle_take _ (length strands + 0) x s).
      * now rewrite lookup_app_r, Nat.add_0_r, Nat.sub_diag by lia.
      * now rewrite insert_app_r.
  - cbn. apply (shuffle_take _ i x s0).
    + now apply lookup_app_l_Some.
    + rewrite insert_app_l by (now apply lookup_lt_Some in Hi). exact IH.
Qed.

Lemma shuffle_snoc {A : Type} (strands : list (list A)) (l : list A) i s x :
  strands !! i = Some s -> shuffle strands l ->
  shuffle (<[i := (s ++ [x])%list]> strands) (l ++ [x]).
Proof.
  intros Hi H. revert i s Hi.
  induction H as [strands H|strands j y s0 l Hj _ IH]; intros i s Hi.
  - assert (s = []) as -> by (eapply Forall_lookup_1 in H; [exact H|exact Hi]).
    cbn. apply (shuffle_take _ i x []).
    + apply list_lookup_insert_eq. now apply lookup_lt_Some in Hi.
    + rewrite list_insert_insert_eq, list_insert_id by exact Hi. now apply shuffle_done.
  - cbn. destruct (decide (i = j)) as [->|N].
    + assert (s = y :: s0) as -> by congruence.
      apply (shuffle_take _ j y (s0 ++ [x])).
      * apply list_lookup_insert_eq. now apply lookup_lt_Some in Hj.
      * rewrite list_insert_insert_eq.
        specialize (IH j s0). rewrite list_insert_insert_eq in IH. apply IH.
        apply list_lookup_insert_eq. now apply lookup_lt_Some in Hj.
    + apply (shuffle_take _ j y s0).
      * now rewrite list_lookup_insert_ne.
      * rewrite list_insert_insert_ne by congruence. apply IH.
        now rewrite list_lookup_insert_ne by congruence.
Qed.

Lemma length_concat_insert {A : Type} (strands : list (list A)) i x s :
  strands !! i = Some (x :: s) ->
  length (concat strands) = S (length (concat (<[i := s]> strands))).
Proof.
  revert i. induction strands as [|s0 strands IH]; intros [|i] H; try discriminate.
  - injection H as ->. cbn. reflexivity.
  - cbn in *. rewrite !length_app, (IH i H), Nat.add_succ_r. reflexivity.
Qed.

Lemma shuffle_length {A : Type} (strands : list (list A)) (l : list A) :
  shuffle strands l -> length l = length (concat strands).
Proof.
  induction 1 as [strands H|strands i x s l Hi _ IH].
  - induction H as [|s strands -> _ IH]; [reflexivity|exact IH].
  - cbn. now rewrite (length_concat_insert _ _ _ _ Hi), IH.
Qed.

(** ** One send, from [await] to [await] *)

Lemma snd_turn w m d n :
  snd (turn w m d n) =
    reply_after w m (cycle_phase_of (fetch w (calculate_cycle_request w d n))).
Proof.
  unfold turn, reply_after.
  destruct (cycle_phase_of _) as [cycleInfo|e]; [|reflexivity].
  destruct (cycleInfoText cycleInfo) as [text|e]; [|reflexivity].
  cbv zeta. now destruct (reply_of _).
Qed.

Lemma resume_suspended t reqs t' :
  sendMessage_resume t = Suspended reqs t' -> task_turn t' = task_turn t.
Proof.
  unfold task_turn.
  destruct t as [w m [e|r]|w m r|w m [e|r]|w m r]; cbn; try discriminate.
  - destruct (ok r); cbn; [|discriminate].
    intros H. injection H as _ <-. reflexivity.
  - destruct (json r) as [e|data]; [discriminate|].
    destruct (check_success data) as [cycleInfo|e]; [|discriminate].
    cbn. destruct (cycleInfoText cycleInfo) as [text|e]; [|discriminate].
    intros H. injection H as _ <-. reflexivity.
  - intros H. injection H as _ <-. reflexivity.
  - destruct (json r) as [e|data]; [discriminate|].
    now destruct (markdownText data).
Qed.

Lemma resume_replied t text :
  sendMessage_resume t = Replied text -> text = task_reply t.
Proof.
  destruct t as [w m [e|r]|w m r|w m [e|r]|w m r]; cbn; try discriminate.
  - now intros [= <-].
  - destruct (ok r); cbn; [discriminate|]. now intros [= <-].
  - destruct (json r) as [e|data]; [now intros [= <-]|].
    destruct (check_success data) as [cycleInfo|e]; [|now intros [= <-]].
    cbn. destruct (cycleInfoText cycleInfo) as [t|e]; [discriminate|now intros [= <-]].
  - now intros [= <-].
  - destruct (json r) as [e|data]; [now intros [= <-]|].
    destruct (markdownText data); now intros [= <-].
Qed.

(** The call of a send with something to send: the message of the user is
    appended, and either the send is over, with the request for the setup
    appended as well, or it waits for the calculation service. *)
Lemma begin_nonempty w st :
  trim (userInput st) <> "" ->
  let t := (w, trim (userInput st), reply_text w st) in
  match sendMessage_begin w st with
  | (st', None) =>
      chatContainer st' = (chatContainer st ++ strand t)%list
  | (st', Some k) =>
      chatContainer st' = (chatContainer st ++ [user_entry t])%list /\ task_turn k = t
  end.
Proof.
  intros Hm. unfold sendMessage_begin, reply_text, outcome.
  destruct (String.eqb_spec (trim (userInput st)) "") as [E|_]; [easy|].
  rewrite (proj1 (started_setup w st)), (proj2 (started_setup w st)).
  destruct (userLastPeriodDate st) as [d|].
  - destruct (String.eqb_spec d "") as [->|Hd].
    + destruct st. page_simpl. now rewrite <- app_assoc.
    + cbv zeta. split; [now destruct st|].
      unfold task_turn. cbn. rewrite <- snd_turn. now destruct (turn _ _ _ _).
  - destruct st. page_simpl. now rewrite <- app_assoc.
Qed.

Lemma begin_empty w st :
  trim (userInput st) = "" -> sendMessage_begin w st = (st, None).
Proof. intros H. unfold sendMessage_begin. now rewrite H. Qed.

(** ** Each step of a play appends to the chat log *)

Lemma act_appends a b :
  chatContainer (page b) `prefix_of` chatContainer (page (act a b)).
Proof.
  destruct a as [ev|i].
  - destruct ev as [text|text|text| |w].
    1-4: unfold act; cbn [page]; now rewrite chatContainer_step_other by easy.
    cbn. destruct (String.eqb_spec (trim (userInput (page b))) "") as [E|N].
    + now rewrite (begin_empty w _ E).
    + pose proof (begin_nonempty w (page b) N) as H. cbv zeta in H.
      destruct (sendMessage_begin w (page b)) as [st' [k|]]; cbn.
      * destruct H as [-> _]. now apply prefix_app_r.
      * rewrite H. now apply prefix_app_r.
  - cbn. unfold settle. destruct (in_flight b !! i) as [t|]; [|reflexivity].
    destruct (sendMessage_resume t) as [reqs t'|text]; cbn.
    + now destruct (page b).
    + destruct (page b). cbn. now apply prefix_app_r.
Qed.

Lemma play_appends acts b :
  chatContainer (page b) `prefix_of` chatContainer (page (play acts b)).
Proof.
  revert b. induction acts as [|a acts IH]; intros b; [reflexivity|].
  cbn. etransitivity; [apply act_appends|apply IH].
Qed.

Lemma play_app acts1 acts2 b : play (acts1 ++ acts2) b = play acts2 (play acts1 b).
Proof. revert b. induction acts1 as [|a acts1 IH]; intros b; [reflexivity|apply IH]. Qed.

(** ** The sends begun so far *)

Lemma is_user_user_entry t : is_user (user_entry t) = true.
Proof. now destruct t as [[w m] text]. Qed.

Lemma is_user_assistant_entry t : is_user (assistant_entry t) = false.
Proof. now destruct t as [[w m] text]. Qed.

Lemma started_sends_cons a acts b :
  started_sends (a :: acts) b = (started_sends [a] b ++ started_sends acts (act a b))%list.
Proof. destruct a as [[]|]; reflexivity. Qed.

Lemma open_task_lookup (slots : list slot) (i : nat) (t : task) :
  omap open_task slots !! i = Some t ->
  exists j,
    slots !! j = Some (Open t) /\
    (forall t', omap open_task (<[j := Open t']> slots) = <[i := t']> (omap open_task slots)) /\
    (forall c, omap open_task (<[j := Closed c]> slots) = delete i (omap open_task slots)).
Proof.
  revert i. induction slots as [|[c|k] slots IH]; intros i H; [discriminate| |].
  - destruct (IH i H) as (j & Hj & Hopen & Hclosed).
    exists (S j). split; [exact Hj|]. split; intros; cbn; [apply Hopen|apply Hclosed].
  - destruct i as [|i].
    + injection H as ->. exists O. repeat split.
    + destruct (IH i H) as (j & Hj & Hopen & Hclosed).
      exists (S j). split; [exact Hj|].
      split; intros; cbn; f_equal; [apply Hopen|apply Hclosed].
Qed.

Lemma all_closed (slots : list slot) :
  omap open_task slots = [] -> map slot_entries slots = map strand (map slot_turn slots).
Proof.
  induction slots as [|[c|k] slots IH]; [reflexivity| |discriminate].
  intros H. cbn. f_equal. now apply IH.
Qed.

Lemma length_strands (turns : list (world * string * string)) :
  length (concat (map strand turns)) = (2 * length turns)%nat.
Proof. induction turns as [|t turns IH]; [reflexivity|]. cbn in *. rewrite IH. lia. Qed.

Section Begun.

Context (log : list message_div).

Lemma begun_idle st : chatContainer st = log -> begun log (idle st) [].
Proof.
  intros H. split; [reflexivity|]. exists []. rewrite app_nil_r.
  repeat split; [exact H|]. apply shuffle_done. constructor.
Qed.

Lemma begun_act a b slots :
  begun log b slots ->
  Forall (fun t : world * string * string => snd (fst t) <> "") (started_sends [a] b) ->
  exists slots',
    begun log (act a b) slots' /\
    map slot_turn slots' = (map slot_turn slots ++ started_sends [a] b)%list.
Proof.
  intros (Hopen & added & Hlog & Hshuffle & Husers) Hne.
  destruct a as [ev|i].
  - destruct ev as [text|text|text| |w].
    1-4: exists slots; split; [|now rewrite app_nil_r];
         split; [exact Hopen|]; exists added; unfold act; cbn [page];
         now rewrite chatContainer_step_other by easy.
    cbn in Hne. apply Forall_cons_1 in Hne as [Hm _]. cbn in Hm.
    pose proof (begin_nonempty w (page b) Hm) as H. cbv zeta in H.
    cbn. destruct (sendMessage_begin w (page b)) as [st' [k|]]; cbn.
    + destruct H as [H Hk].
      exists (slots ++ [Open k])%list. split.
      * split; [rewrite omap_app; cbn; now rewrite Hopen|].
        exists (added ++ [user_entry (task_turn k)])%list.
        cbn [page]. rewrite H, Hlog, Hk, <- app_assoc. split; [reflexivity|]. split.
        -- rewrite map_app. change (map slot_entries [Open k]) with [[user_entry (task_turn k)]].
           rewrite Hk. now apply shuffle_new.
        -- rewrite List.filter_app, !map_app, Husers.
           change (map slot_turn [Open k]) with [task_turn k]. rewrite Hk.
           cbn [List.filter map]. now rewrite is_user_user_entry.
      * rewrite map_app. change (map slot_turn [Open k]) with [task_turn k].
        now rewrite Hk.
    + exists (slots ++ [Closed (w, trim (userInput (page b)), reply_text w (page b))])%list.
      split.
      * split; [rewrite omap_app; cbn; now rewrite Hopen, app_nil_r|].
        exists (added ++ strand (w, trim (userInput (page b)), reply_text w (page b)))%list.
        cbn [page]. rewrite H, Hlog, <- app_assoc. split; [reflexivity|]. split.
        -- rewrite map_app. cbn. now apply shuffle_new.
        -- rewrite List.filter_app, !map_app, Husers. unfold strand.
           cbn [List.filter map slot_turn].
           now rewrite is_user_user_entry, is_user_assistant_entry.
      * now rewrite map_app.
  - cbn. rewrite app_nil_r. unfold settle.
    destruct (in_flight b !! i) as [t|] eqn:Hi;
      [|exists slots; split; [split; [exact Hopen|exists added; easy]|reflexivity]].
    rewrite <- Hopen in Hi.
    destruct (open_task_lookup slots i t Hi) as (j & Hj & Hsuspended & Hreplied).
    destruct (sendMessage_resume t) as [reqs t'|text] eqn:Hr.
    + apply resume_suspended in Hr.
      assert (map slot_turn (<[j := Open t']> slots) = map slot_turn slots) as Hturns.
      { rewrite list_fmap_insert. cbn [slot_turn]. rewrite Hr. apply list_insert_id.
        now rewrite list_lookup_fmap, Hj. }
      exists (<[j := Open t']> slots). split; [|exact Hturns].
      split; [cbn; now rewrite Hsuspended, Hopen|].
      exists added. cbn. split; [now destruct (page b)|]. split; [|now rewrite Hturns].
      rewrite list_fmap_insert. cbn [slot_entries]. rewrite Hr, list_insert_id; [exact Hshuffle|].
      now rewrite list_lookup_fmap, Hj.
    + apply resume_replied in Hr. subst text.
      assert (map slot_turn (<[j := Closed (task_turn t)]> slots) = map slot_turn slots)
        as Hturns.
      { rewrite list_fmap_insert. cbn [slot_turn]. apply list_insert_id.
        now rewrite list_lookup_fmap, Hj. }
      exists (<[j := Closed (task_turn t)]> slots). split; [|exact Hturns].
      split; [cbn; now rewrite Hreplied, Hopen|].
      exists (added ++ [assistant_entry (task_turn t)])%list. cbn [page in_flight].
      split; [destruct (page b); cbn in *; now rewrite Hlog, <- app_assoc|].
      split.
      * rewrite list_fmap_insert.
        apply (shuffle_snoc _ _ j [user_entry (task_turn t)]); [|exact Hshuffle].
        now rewrite list_lookup_fmap, Hj.
      * rewrite List.filter_app, Hturns, Husers. cbn [List.filter].
        rewrite is_user_assistant_entry. apply app_nil_r.
Qed.

Lemma begun_play acts b slots :
  begun log b slots ->
  Forall (fun t : world * string * string => snd (fst t) <> "") (started_sends acts b) ->
  exists slots',
    begun log (play acts b) slots' /\
    map slot_turn slots' = (map slot_turn slots ++ started_sends acts b)%list.
Proof.
  revert b slots. induction acts as [|a acts IH]; intros b slots H Hne.
  - exists slots. split; [exact H|now rewrite app_nil_r].
  - rewrite started_sends_cons in Hne. apply Forall_app in Hne as [Ha Hacts].
    destruct (begun_act a b slots H Ha) as (slots1 & H1 & E1).
    destruct (IH (act a b) slots1 H1 Hacts) as (slots2 & H2 & E2).
    exists slots2. split; [exact H2|].
    now rewrite E2, E1, (started_sends_cons a acts b), <- app_assoc.
Qed.

End Begun.

(** ** Sends that do not overlap *)

Lemma settle_none i b : in_flight b !! i = None -> settle i b = b.
Proof. intros H. unfold settle. now rewrite H. Qed.

Lemma settle_some i b t :
  in_flight b !! i = Some t ->
  settle i b =
    match sendMessage_resume t with
    | Suspended reqs t' =>
        {| page := with_requests (requests (page b) ++ reqs) (page b);
           in_flight := <[i := t']> (in_flight b) |}
    | Replied text =>
        {| page :=
             with_loading "none"
               (with_chatContainer
                  (chatContainer (page b) ++ [new_message (task_world t) text assistant])
                  (page b));
           in_flight := delete i (in_flight b) |}
    end.
Proof. intros H. unfold settle. now rewrite H. Qed.

Lemma transcript_cons w m text (turns : list (world * string * string)) :
  transcript (map fst ((w, m, text) :: turns)) (map snd ((w, m, text) :: turns)) =
    (strand (w, m, text) ++ transcript (map fst turns) (map snd turns))%list.
Proof. reflexivity. Qed.

Lemma one_at_a_time_log acts b :
  (length (in_flight b) <= 1)%nat ->
  one_at_a_time acts b = true ->
  Forall (fun t : world * string * string => snd (fst t) <> "") (started_sends acts b) ->
  in_flight (play acts b) = [] ->
  chatContainer (page (play acts b)) =
    (chatContainer (page b) ++
       map (fun t => assistant_entry (task_turn t)) (in_flight b) ++
       transcript (map fst (started_sends acts b)) (map snd (started_sends acts b)))%list.
Proof.
  revert b. induction acts as [|a acts IH]; intros b Hlen Hone Hne Hend.
  - cbn in *. rewrite Hend. cbn. now rewrite app_nil_r.
  - destruct a as [ev|i].
    + destruct ev as [text|text|text| |w].
      1-4: cbn [play started_sends] in *; cbn [one_at_a_time] in Hone;
           match type of Hend with
           | context [play ?rest ?b'] =>
               assert (one_at_a_time rest b' = true) as Hone'
                 by (destruct (in_flight b); exact Hone);
               rewrite (IH b' Hlen Hone' Hne Hend)
           end;
           unfold act; cbn [page in_flight];
           now rewrite chatContainer_step_other by easy.
      cbn in Hone. destruct (in_flight b) as [|t rest] eqn:Hb; [|discriminate].
      cbn in Hne. apply Forall_cons_1 in Hne as [Hm Hne]. cbn in Hm.
      pose proof (begin_nonempty w (page b) Hm) as H. cbv zeta in H.
      cbn [play started_sends]. cbn [play] in Hend. rewrite transcript_cons.
      cbn [act] in *. rewrite Hb in *.
      destruct (sendMessage_begin w (page b)) as [st' [k|]]; cbn [app] in *.
      * destruct H as [H Hk].
        rewrite IH by first [exact Hone|exact Hne|exact Hend|cbn; lia].
        cbn [page in_flight map app].
        rewrite H, Hk. cbn. now rewrite <- app_assoc.
      * rewrite IH by first [exact Hone|exact Hne|exact Hend|cbn; lia].
        cbn [page in_flight map app].
        rewrite H. cbn. now rewrite <- app_assoc.
    + cbn [play started_sends one_at_a_time act] in *.
      assert (one_at_a_time acts (settle i b) = true) as Hone'
        by (destruct (in_flight b); exact Hone).
      clear Hone.
      destruct (in_flight b !! i) as [t|] eqn:Hi;
        [|rewrite (settle_none i b Hi) in *; now apply IH].
      assert (in_flight b = [t] /\ i = O) as [Hb ->].
      { destruct (in_flight b) as [|t0 [|t1 rest]]; [discriminate| |cbn in Hlen; lia].
        destruct i as [|i]; [|discriminate]. now injection Hi as ->. }
      rewrite (settle_some O b t Hi) in *.
      destruct (sendMessage_resume t) as [reqs t'|text] eqn:Hr.
      * rewrite IH by first [exact Hone'|exact Hne|exact Hend|rewrite Hb; cbn; lia].
        cbn [page in_flight]. rewrite Hb. change (<[O := t']> [t]) with [t'].
        cbn [map]. rewrite (resume_suspended _ _ _ Hr). now destruct (page b).
      * apply resume_replied in Hr. subst text.
        rewrite IH by first [exact Hone'|exact Hne|exact Hend|rewrite Hb; cbn; lia].
        cbn [page in_flight]. rewrite Hb. change (delete O [t]) with (@nil task).
        cbn [map]. destruct (page b). cbn [chatContainer with_loading with_chatContainer].
        now rewrite <- app_assoc.
Qed.

(** ** A send followed to its end

    A run of the page, where every send is over before the next event, is
    the play in which the four promises of each send settle at once. *)

Lemma settle_idle i st : settle i (idle st) = idle st.
Proof. now destruct i. Qed.

Lemma settle_suspended st t reqs t' :
  sendMessage_resume t = Suspended reqs t' ->
  settle 0 {| page := st; in_flight := [t] |} =
    {| page := with_requests (requests st ++ reqs) st; in_flight := [t'] |}.
Proof. intros H. rewrite (settle_some O _ t) by reflexivity. now rewrite H. Qed.

Lemma settle_replied st t text :
  sendMessage_resume t = Replied text ->
  settle 0 {| page := st; in_flight := [t] |} =
    idle (with_loading "none"
            (with_chatContainer
               (chatContainer st ++ [new_message (task_world t) text assistant]) st)).
Proof. intros H. rewrite (settle_some O _ t) by reflexivity. now rewrite H. Qed.

Lemma play_settled w st :
  play [Handle (Send w); Settle 0; Settle 0; Settle 0; Settle 0] (idle st) =
    idle (exec (sendMessage w) st).
Proof.
  rewrite sendMessage_outcome. unfold outcome. cbn [play act page in_flight idle].
  fold (idle st). unfold sendMessage_begin.
  destruct (String.eqb_spec (trim (userInput st)) "") as [E|N];
    [fold (idle st); now rewrite !settle_idle|].
  rewrite (proj1 (started_setup w st)), (proj2 (started_setup w st)).
  assert (finished w (ask_for_setup w (started w st)) = after_send w st [] setup_request)
    as Hsetup by (destruct st; page_simpl; now rewrite <- app_assoc, app_nil_r).
  destruct (userLastPeriodDate st) as [d|];
    [|rewrite Hsetup; fold (idle (after_send w st [] setup_request));
      now rewrite !settle_idle].
  destruct (String.eqb_spec d "") as [->|Hd];
    [rewrite Hsetup; fold (idle (after_send w st [] setup_request));
     now rewrite !settle_idle|].
  clear Hsetup. cbv zeta. cbn [app]. unfold turn, cycle_phase_of.
  set (calc := calculate_cycle_request w d (userCycleLength st)).
  set (m := trim (userInput st)).
  assert (forall e reqs,
            idle (with_loading "none"
                    (with_chatContainer
                       (chatContainer (started w st) ++
                          [new_message w ("Error: " ++ message e) assistant])
                       (with_requests (requests (started w st) ++ reqs) (started w st)))) =
            idle (after_send w st reqs ("Error: " ++ message e))) as Hcaught.
  { intros e reqs. f_equal. destruct st. page_simpl. now rewrite <- app_assoc. }
  destruct (fetch w calc) as [e|r].
  { rewrite (settle_replied _ _ ("Error: " ++ message e)) by reflexivity.
    rewrite !settle_idle. destruct st. apply (Hcaught e [calc]). }
  destruct (ok r) eqn:Hok.
  2:{ rewrite (settle_replied _ _ "Error: Failed to calculate cycle phase")
        by (cbn; now rewrite Hok).
      rewrite !settle_idle. destruct st.
      apply (Hcaught (Error "Failed to calculate cycle phase") [calc]). }
  rewrite (settle_suspended _ _ [] (Await_calculation_json w m r)) by (cbn; now rewrite Hok).
  destruct (json r) as [e|data] eqn:Hjson.
  { rewrite (settle_replied _ _ ("Error: " ++ message e)) by (cbn; now rewrite Hjson).
    rewrite !settle_idle. destruct st. rewrite <- (Hcaught e [calc]). cbn.
    now rewrite app_nil_r. }
  destruct (check_success data) as [cycleInfo|e] eqn:Hcheck.
  2:{ rewrite (settle_replied _ _ ("Error: " ++ message e))
        by (cbn; now rewrite Hjson, Hcheck).
      rewrite !settle_idle. destruct st. rewrite <- (Hcaught e [calc]). cbn.
      now rewrite app_nil_r. }
  destruct (cycleInfoText cycleInfo) as [text|e] eqn:Htext.
  2:{ rewrite (settle_replied _ _ ("Error: " ++ message e))
        by (cbn; now rewrite Hjson, Hcheck, Htext).
      rewrite !settle_idle. destruct st. rewrite <- (Hcaught e [calc]). cbn.
      now rewrite app_nil_r. }
  cbv zeta. set (chat := chat_request (prompt text m)).
  rewrite (settle_suspended _ _ [chat] (Await_completion w m (fetch w chat)))
    by (cbn; now rewrite Hjson, Hcheck, Htext).
  unfold reply_of.
  destruct (fetch w chat) as [e|r2].
  { rewrite (settle_replied _ _ ("Error: " ++ message e)) by reflexivity.
    rewrite !settle_idle. destruct st. rewrite <- (Hcaught e [calc; chat]). cbn.
    now rewrite app_nil_r, <- !app_assoc. }
  rewrite (settle_suspended _ _ [] (Await_completion_json w m r2)) by reflexivity.
  destruct (json r2) as [e|data2] eqn:Hjson2.
  { rewrite (settle_replied _ _ ("Error: " ++ message e)) by (cbn; now rewrite Hjson2).
    destruct st. rewrite <- (Hcaught e [calc; chat]). cbn.
    now rewrite !app_nil_r, <- !app_assoc. }
  destruct (markdownText data2) as [reply|e] eqn:Hreply.
  - rewrite (settle_replied _ _ reply) by (cbn; now rewrite Hjson2, Hreply).
    f_equal. destruct st. page_simpl. now rewrite !app_nil_r, <- !app_assoc.
  - rewrite (settle_replied _ _ ("Error: " ++ message e))
      by (cbn; now rewrite Hjson2, Hreply).
    destruct st. rewrite <- (Hcaught e [calc; chat]). cbn.
    now rewrite !app_nil_r, <- !app_assoc.
Qed.

Lemma play_serial evs st : play (serial evs) (idle st) = idle (run evs st).
Proof.
  revert st. induction evs as [|ev evs IH]; intros st; [reflexivity|].
  change (serial (ev :: evs)) with
    (match ev with
     | Send _ => [Handle ev; Settle 0; Settle 0; Settle 0; Settle 0]
     | _ => [Handle ev]
     end ++ serial evs)%list.
  rewrite play_app. cbn [run].
  destruct ev as [text|text|text| |w]; try apply IH.
  rewrite play_settled. apply IH.
Qed.

(** ** The chat log once the sends are over *)

(** C5, as stated, fails: a second send started while the first one waits
    for the calculation service shows its message before the first reply,
    so the log reads user, user, assistant, assistant. *)
Lemma overlapping_sends_out_of_order :
  chatContainer (page (play overlapping_sends (idle crampy_page))) =
    [ new_message calm_world "I feel crampy today" user;
      new_message calm_world "and tired" user;
      new_message calm_world "Cramps are common on day 5. Rest and warmth help." assistant;
      new_message calm_world "Cramps are common on day 5. Rest and warmth help." assistant ] /\
  in_flight (play overlapping_sends (idle crampy_page)) = [] /\
  ~ log_in_send_order.
Proof.
  split; [reflexivity|]. split; [reflexivity|].
  intros H. destruct (H overlapping_sends crampy_page) as (replies & Hlen & Hlog).
  - repeat constructor; discriminate.
  - reflexivity.
  - destruct replies as [|r1 [|r2 [|r3 replies]]]; try discriminate Hlen.
    vm_compute in Hlog. discriminate Hlog.
Qed.

(** C5. Once the sends of a play are over, each with a non-empty trimmed
    input, the chat log has grown by exactly two entries for each of them:
    the entries interleave the pairs of the sends, the message of the user
    then one message of the assistant (with the reply, the error or the
    request for the setup), and the messages of the users are in the order
    of the sends. The log only ever grows at its end, so nothing appended is
    changed or removed. When no send is started while another waits, the
    entries are in send order, pair after pair. *)
Theorem chat_log_after_completed_sends (acts : list action) (st : state) :
  Forall (fun t : world * string * string => snd (fst t) <> "")
    (started_sends acts (idle st)) ->
  in_flight (play acts (idle st)) = [] ->
  exists added : list message_div,
    chatContainer (page (play acts (idle st))) = (chatContainer st ++ added)%list /\
    length added = (2 * length (started_sends acts (idle st)))%nat /\
    shuffle (map strand (started_sends acts (idle st))) added /\
    List.filter is_user added = map user_entry (started_sends acts (idle st)) /\
    (forall acts1 acts2 : list action,
       acts = (acts1 ++ acts2)%list ->
       chatContainer (page (play acts1 (idle st)))
         `prefix_of` chatContainer (page (play acts (idle st)))) /\
    (one_at_a_time acts (idle st) = true ->
     added =
       transcript (map fst (started_sends acts (idle st)))
         (map snd (started_sends acts (idle st)))).
Proof.
  intros Hne Hend.
  destruct (begun_play (chatContainer st) acts (idle st) [] (begun_idle _ st eq_refl) Hne)
    as (slots & (Hopen & added & Hlog & Hshuffle & Husers) & Hturns).
  cbn [map app] in Hturns. rewrite Hend in Hopen.
  rewrite (all_closed slots Hopen), Hturns in Hshuffle. rewrite Hturns in Husers.
  exists added. split; [exact Hlog|].
  split; [now rewrite (shuffle_length _ _ Hshuffle), length_strands|].
  split; [exact Hshuffle|]. split; [exact Husers|]. split.
  - intros acts1 acts2 ->. rewrite play_app. apply play_appends.
  - intros Hone.
    pose proof (one_at_a_time_log acts (idle st) (Nat.le_0_l 1) Hone Hne Hend) as H.
    cbn [idle page in_flight map app] in H. rewrite Hlog in H.
    now apply app_inv_head in H.
Qed.

Lemma chat_log_after_completed_sends_witness :
  exists added : list message_div,
    chatContainer (page (play overlapping_sends (idle crampy_page))) =
      (chatContainer crampy_page ++ added)%list /\
    length added = (2 * length (started_sends overlapping_sends (idle crampy_page)))%nat /\
    shuffle (map strand (started_sends overlapping_sends (idle crampy_page))) added /\
    List.filter is_user added =
      map user_entry (started_sends overlapping_sends (idle crampy_page)) /\
    (forall acts1 acts2 : list action,
       overlapping_sends = (acts1 ++ acts2)%list ->
       chatContainer (page (play acts1 (idle crampy_page)))
         `prefix_of` chatContainer (page (play overlapping_sends (idle crampy_page)))) /\
    (one_at_a_time overlapping_sends (idle crampy_page) = true ->
     added =
       transcript (map fst (started_sends overlapping_sends (idle crampy_page)))
         (map snd (started_sends overlapping_sends (idle crampy_page)))).
Proof.
  apply (chat_log_after_completed_sends overlapping_sends crampy_page).
  - repeat constructor; discriminate.
  - reflexivity.
Defined.
